(** * Interactive Relationship Explorer (Q3.py): a shallow embedding

    The notebook is seven reactive cells.  Cell 3 builds two sliders,
    cell 4 draws a synthetic bivariate sample, cell 5 computes the Pearson
    correlation and a degree-1 least-squares fit, cell 6 draws the sample
    and the fitted line, cell 7 renders a text summary.  The cells are
    glue around numpy, pandas, matplotlib and marimo; the library calls
    they make are modelled here from the libraries' Python code, each in
    the section that uses it.  Cells 1 and 2 (the introduction and the
    imports) are not modelled.

    Numbers.  Cells 3 and 4 only add and multiply floats, so they are
    written once over an interface [PyFloat] with two instances: IEEE
    binary64 (the Standard Library's [spec_float] at precision 53) and the
    real numbers.  Cells 5, 6 and 7 are defined on binary64 values.  The
    compiled kernels the libraries end in are parameters: the bit
    generator, the summation and BLAS product and the LAPACK solver
    behind cell 5, the minimum and maximum reductions behind cell 6.
    Each comes with a simple stand-in with which the cells can be run.
    The least-squares reference that the specification names is written
    in exact rational arithmetic. *)

From Stdlib Require Import ZArith List String Ascii Bool Lia.
From Stdlib Require Import Reals Lra.
From Stdlib Require Import Floats.SpecFloat.
From Stdlib Require Import QArith.
Import ListNotations.

Close Scope Q_scope.

Set Implicit Arguments.

(** ** Python exceptions and results *)

Inductive exn : Type :=
| ValueError (msg : string)
| TypeError (msg : string)
| LinAlgError (msg : string).

Inductive result (A : Type) : Type :=
| Ok (a : A)
| Raise (e : exn).

Arguments Ok {A} a.
Arguments Raise {A} e.

Definition is_ok {A} (r : result A) : bool :=
  match r with Ok _ => true | Raise _ => false end.

(** ** Floating-point interface used by cells 3 and 4 *)

Class PyFloat (F : Type) : Type := {
  (** conversion of a Python int argument to a float *)
  float_of_int : Z -> F;
  (** the float denoted by the decimal literal [m * 10^-k] *)
  float_lit : Z -> nat -> F;
  fadd : F -> F -> F;
  fmul : F -> F -> F;
  (** numpy's refusal of a scale: the test "scale < 0" *)
  is_negative : F -> bool
}.

(** What the cells rely on: the scale [1] of the draws of [x] passes the
    test [scale < 0]. *)
Class PyFloatLaws (F : Type) {PF : PyFloat F} : Prop := {
  unit_scale_ok : is_negative (float_of_int 1) = false
}.

Arguments PyFloatLaws F {PF}.

(** ** The pseudorandom source

    [np.random.default_rng(seed)] builds a generator whose state is
    determined by the seed; each standard-normal draw advances the state.
    The bit stream itself (PCG64 and the ziggurat sampler) is a parameter. *)

Class BitGenerator (F : Type) : Type := {
  bitgen : Type;
  default_rng : Z -> bitgen;
  standard_normal : bitgen -> F * bitgen
}.

(** ** The data frame of cell 4: rows of (x, y) *)

Definition DataFrame (F : Type) : Type := list (F * F).

Definition col_x {F} (df : DataFrame F) : list F := map fst df.
Definition col_y {F} (df : DataFrame F) : list F := map snd df.

(** [pd.DataFrame({"x": x, "y": y})]: the columns must have one length. *)
Definition pd_DataFrame {F} (x y : list F) : result (DataFrame F) :=
  if Nat.eqb (List.length x) (List.length y) then Ok (combine x y)
  else Raise (ValueError "All arrays must be of the same length").

(** ** Cell 3: the two controls *)

Record slider (V : Type) : Type := mk_slider {
  start : V;
  stop : V;
  step : V;
  value : V;
  label : string
}.

Section Generation.

Context {F : Type} {PF : PyFloat F} {BG : BitGenerator F}.

Definition cell3 : slider Z * slider F :=
  let n := mk_slider 100%Z 5000%Z 100%Z 1000%Z "Sample size n" in
  let noise :=
    mk_slider (float_lit 0 1) (float_lit 20 1) (float_lit 1 1)
              (float_lit 5 1) "Noise σ" in
  (n, noise).

(** *** Computations that use the generator bound to [rng] *)

Definition Rand (A : Type) : Type := bitgen -> result (A * bitgen).

Definition ret {A} (a : A) : Rand A := fun g => Ok (a, g).

Definition bind {A B} (c : Rand A) (k : A -> Rand B) : Rand B :=
  fun g => match c g with
           | Ok (a, g') => k a g'
           | Raise e => Raise e
           end.

(** [rng = np.random.default_rng(seed)]: rebinds [rng], whatever it held. *)
Definition seed_rng (seed : Z) : Rand unit :=
  fun _ => Ok (tt, default_rng seed).

Notation "x <- c ;; k" := (bind c (fun x => k))
  (at level 61, c at next level, right associativity).
Notation "c ;;; k" := (bind c (fun _ => k))
  (at level 61, right associativity).

(** [k] successive draws of [loc + scale * standard_normal()]. *)
Fixpoint draws (k : nat) (loc scale : F) (g : bitgen) : list F * bitgen :=
  match k with
  | O => ([], g)
  | S k' =>
      let (z, g1) := standard_normal g in
      let (rest, g2) := draws k' loc scale g1 in
      (fadd loc (fmul scale z) :: rest, g2)
  end.

(** [rng.normal(loc, scale, size=size)] with scalar [loc] and [scale]:
    the scale is checked first, then the output array is allocated
    (a negative size is refused), then it is filled draw by draw. *)
Definition normal (loc scale : F) (size : Z) : Rand (list F) :=
  fun g =>
    if is_negative scale then Raise (ValueError "scale < 0")
    else if (size <? 0)%Z
         then Raise (ValueError "negative dimensions are not allowed")
         else Ok (draws (Z.to_nat size) loc scale g).

(** [c * a] on an array. *)
Definition scalar_mul (c : F) (a : list F) : list F := map (fmul c) a.

(** [a + b] on one-dimensional arrays: elementwise on equal shapes, a
    one-element array is broadcast, other shapes are refused. *)
Definition array_add (a b : list F) : result (list F) :=
  if Nat.eqb (List.length a) (List.length b)
  then Ok (map (fun p => fadd (fst p) (snd p)) (combine a b))
  else match a, b with
       | [u], _ => Ok (map (fun v => fadd u v) b)
       | _, [v] => Ok (map (fun u => fadd u v) a)
       | _, _ => Raise (ValueError "operands could not be broadcast together")
       end.

Definition lift {A} (r : result A) : Rand A :=
  fun g => match r with Ok a => Ok (a, g) | Raise e => Raise e end.

(** *** Cell 4: data generation *)

Definition cell4 (n : Z) (noise : F) : Rand (DataFrame F) :=
  seed_rng 123 ;;;
  x <- normal (float_of_int 0) (float_of_int 1) n ;;
  let t := scalar_mul (float_lit 25 1) x in
  e <- normal (float_of_int 0) noise n ;;
  y <- lift (array_add t e) ;;
  df <- lift (pd_DataFrame x y) ;;
  ret df.

(** The arrays cell 4 builds when both calls of [normal] succeed: the
    draws of [x] start from the fresh generator, the noise draws continue
    from where those stopped. *)
Definition x_sample (n : Z) : list F :=
  fst (draws (Z.to_nat n) (float_of_int 0) (float_of_int 1) (default_rng 123)).

Definition rng_after_x (n : Z) : bitgen :=
  snd (draws (Z.to_nat n) (float_of_int 0) (float_of_int 1) (default_rng 123)).

Definition noise_sample (n : Z) (noise : F) : list F :=
  fst (draws (Z.to_nat n) (float_of_int 0) noise (rng_after_x n)).

Definition rng_after_noise (n : Z) (noise : F) : bitgen :=
  snd (draws (Z.to_nat n) (float_of_int 0) noise (rng_after_x n)).

Definition y_sample (n : Z) (noise : F) : list F :=
  map (fun p => fadd (fst p) (snd p))
      (combine (scalar_mul (float_lit 25 1) (x_sample n)) (noise_sample n noise)).

End Generation.

(** ** The two arithmetics *)

(** *** IEEE binary64 *)

Definition binary64 : Type := spec_float.

Definition b64_add : binary64 -> binary64 -> binary64 := SFadd 53 1024.
Definition b64_mul : binary64 -> binary64 -> binary64 := SFmul 53 1024.
Definition b64_div : binary64 -> binary64 -> binary64 := SFdiv 53 1024.

(** An integer rounded to the nearest double. *)
Definition b64_of_Z (z : Z) : binary64 := binary_normalize 53 1024 z 0 false.

(** The double nearest to the decimal [m * 10^-k]: numerator and
    denominator are exact for the literals of the notebook, and the
    division rounds once. *)
Definition b64_lit (m : Z) (k : nat) : binary64 :=
  b64_div (b64_of_Z m) (b64_of_Z (10 ^ Z.of_nat k)).

(** numpy refuses a scale that is not NaN and has its sign bit set, so
    -0.0 as well. *)
Definition b64_signbit (v : binary64) : bool :=
  match v with
  | S754_zero s | S754_infinity s | S754_finite s _ _ => s
  | S754_nan => false
  end.

Definition b64_is_finite (v : binary64) : bool :=
  match v with
  | S754_zero _ | S754_finite _ _ _ => true
  | S754_infinity _ | S754_nan => false
  end.

#[export] Instance binary64_float : PyFloat binary64 := {|
  float_of_int := b64_of_Z;
  float_lit := b64_lit;
  fadd := b64_add;
  fmul := b64_mul;
  is_negative := b64_signbit
|}.

(** *** Exact real arithmetic *)

Definition R_is_negative (r : R) : bool :=
  if Rlt_dec r 0 then true else false.

#[export] Instance real_float : PyFloat R := {|
  float_of_int := IZR;
  float_lit := fun m k => (IZR m / IZR (10 ^ Z.of_nat k))%R;
  fadd := Rplus;
  fmul := Rmult;
  is_negative := R_is_negative
|}.

(** *** A small linear congruential source, used to run the cells *)

Definition lcg_next (g : Z) : Z := ((1103515245 * g + 12345) mod 2147483648)%Z.

Definition lcg_sample (g : Z) : Z := ((g / 65536) mod 9 - 4)%Z.

Definition lcg_generator {F} (inj : Z -> F) : BitGenerator F := {|
  bitgen := Z;
  default_rng := fun seed => seed;
  standard_normal := fun g => (inj (lcg_sample (lcg_next g)), lcg_next g)
|}.

Definition lcg_b64 : BitGenerator binary64 := lcg_generator b64_of_Z.

(** ** Cell 5: correlation and least-squares fit, on binary64

    The cell calls [Series.corr] and [np.polyfit].  What pandas and numpy
    do in Python is written out below on doubles.  Three numeric kernels
    they hand the work to are parameters: the pairwise summation of
    [np.add.reduce] along a contiguous row, the BLAS product behind
    [np.dot] (its order of accumulation depends on the build), and the
    LAPACK driver behind [np.linalg.lstsq]. *)

Definition b64_sub : binary64 -> binary64 -> binary64 := SFsub 53 1024.
Definition b64_sqrt : binary64 -> binary64 := SFsqrt 53 1024.

Definition b64_isnan (v : binary64) : bool :=
  match v with S754_nan => true | _ => false end.

Definition b64_of_nat (k : nat) : binary64 := b64_of_Z (Z.of_nat k).

(** [np.finfo(np.float64).eps], 2^-52. *)
Definition b64_eps : binary64 := S754_finite false 4503599627370496 (-104).

Class Reductions : Type := {
  (** the sum of a row, as [np.add.reduce] accumulates it *)
  row_sum : list binary64 -> binary64;
  (** the product of two rows, as the BLAS kernel accumulates it *)
  blas_dot : list binary64 -> list binary64 -> binary64
}.

Class LeastSquares : Type := {
  (** [np.linalg.lstsq(lhs, rhs, rcond)[0]] for a matrix of two columns:
      the two coefficients, or [None] when LAPACK does not converge and
      numpy raises LinAlgError *)
  lstsq : list (binary64 * binary64) -> list binary64 -> binary64 ->
          option (binary64 * binary64)
}.

(** [np.maximum] and [np.minimum] as [np.clip] uses them: a NaN in the
    first operand is kept. *)
Definition clip_max (a b : binary64) : binary64 :=
  if b64_isnan a || SFltb b a then a else b.

Definition clip_min (a b : binary64) : binary64 :=
  if b64_isnan a || SFltb a b then a else b.

(** [np.clip(v, lo, hi)] *)
Definition np_clip (lo hi v : binary64) : binary64 :=
  clip_min (clip_max v lo) hi.

Section Statistics.

Context {RD : Reductions} {LS : LeastSquares}.

(** [row.mean()]: the sum divided by the count. *)
Definition np_mean (l : list binary64) : binary64 :=
  b64_div (row_sum l) (b64_of_nat (List.length l)).

(** [X -= avg[:, None]] on one row *)
Definition centered (l : list binary64) : list binary64 :=
  map (fun v => b64_sub v (np_mean l)) l.

(** [np.true_divide(1, fact)] with [fact = N - 1], replaced by 0.0 when it
    is not positive. *)
Definition cov_factor (N : nat) : binary64 :=
  let fact := (Z.of_nat N - 1)%Z in
  b64_div (b64_of_Z 1)
          (if (fact <=? 0)%Z then S754_zero false else b64_of_Z fact).

(** One entry of [np.cov]: the product of the two centred rows, times the
    factor. *)
Definition np_cov (a b : list binary64) : binary64 :=
  b64_mul (blas_dot (centered a) (centered b)) (cov_factor (List.length a)).

(** The off-diagonal entry of [np.corrcoef(a, b)]: the covariance divided
    by the standard deviation of the first row, then by that of the
    second, then clipped to [-1, 1]. *)
Definition np_corrcoef (a b : list binary64) : binary64 :=
  let stddev0 := b64_sqrt (np_cov a a) in
  let stddev1 := b64_sqrt (np_cov b b) in
  np_clip (b64_of_Z (-1)) (b64_of_Z 1)
          (b64_div (b64_div (np_cov a b) stddev0) stddev1).

(** The rows in which neither value is NaN. *)
Definition valid_rows (a b : list binary64) : list (binary64 * binary64) :=
  filter (fun p => negb (b64_isnan (fst p)) && negb (b64_isnan (snd p)))
         (combine a b).

(** [a.corr(b)] for two columns of one frame (method pearson, one valid
    row required): NaN on an empty column, the rows with a NaN are left
    out, NaN when none is left, otherwise [np.corrcoef(a, b)[0, 1]]. *)
Definition series_corr (a b : list binary64) : binary64 :=
  if Nat.eqb (List.length a) 0 then S754_nan
  else
    let rows := valid_rows a b in
    if Nat.ltb (List.length rows) 1 then S754_nan
    else np_corrcoef (map fst rows) (map snd rows).

(** The sum of a column of a two-dimensional array ([sum(axis=0)]): row
    after row. *)
Definition column_sum (l : list binary64) : binary64 :=
  fold_left b64_add l (S754_zero false).

(** The part of [np.polyfit(x, y, 1)] that precedes the solver: [+ 0.0]
    on both columns, the two refusals, [rcond = len(x) * eps], the
    Vandermonde matrix [[x_i, 1]] and the scaling of its columns by
    [sqrt((lhs * lhs).sum(axis=0))].  It returns the scaled matrix, the
    right-hand side, [rcond] and the two scales. *)
Definition np_polyfit_system (x y : list binary64)
  : result (list (binary64 * binary64) * list binary64 * binary64
            * (binary64 * binary64)) :=
  let x := map (fun v => b64_add v (S754_zero false)) x in
  let y := map (fun v => b64_add v (S754_zero false)) y in
  if Nat.eqb (List.length x) 0
  then Raise (TypeError "expected non-empty vector for x")
  else if negb (Nat.eqb (List.length x) (List.length y))
  then Raise (TypeError "expected x and y to have same length")
  else
    let rcond := b64_mul (b64_of_nat (List.length x)) b64_eps in
    let one := b64_of_Z 1 in
    let scale0 := b64_sqrt (column_sum (map (fun v => b64_mul v v) x)) in
    let scale1 := b64_sqrt (column_sum (map (fun _ => b64_mul one one) x)) in
    let lhs := map (fun v => (b64_div v scale0, b64_div one scale1)) x in
    Ok (lhs, y, rcond, (scale0, scale1)).

(** [np.polyfit(x, y, 1)]: the solver's coefficients, each divided by the
    scale of its column (a rank warning is not an error). *)
Definition np_polyfit (x y : list binary64) : result (binary64 * binary64) :=
  match np_polyfit_system x y with
  | Ok (lhs, rhs, rcond, (scale0, scale1)) =>
      match lstsq lhs rhs rcond with
      | Some (c0, c1) => Ok (b64_div c0 scale0, b64_div c1 scale1)
      | None =>
          Raise (LinAlgError "SVD did not converge in Linear Least Squares")
      end
  | Raise e => Raise e
  end.

(** What cell 5 hands on: the correlation (possibly NaN), slope, intercept. *)
Record FitResult : Type := mk_fit {
  corr : binary64;
  m : binary64;
  b : binary64
}.

Definition cell5 (df : DataFrame binary64) : result FitResult :=
  let corr := series_corr (col_x df) (col_y df) in
  match np_polyfit (col_x df) (col_y df) with
  | Ok (m, b) => Ok (mk_fit corr m b)
  | Raise e => Raise e
  end.

(** *** Cells 4 and 5 in sequence *)

Definition generate_and_analyze {BG : BitGenerator binary64}
  (n : Z) (noise : binary64)
  : bitgen -> result (DataFrame binary64 * FitResult * bitgen) :=
  fun g =>
    match cell4 n noise g with
    | Ok (df, g') =>
        match cell5 df with
        | Ok fit => Ok (df, fit, g')
        | Raise e => Raise e
        end
    | Raise e => Raise e
    end.

End Statistics.

(** *** Kernels to run cell 5 with: left-to-right accumulation, and a
    solver of the normal equations standing in for LAPACK *)

Definition seq_sum (l : list binary64) : binary64 :=
  match l with
  | [] => S754_zero false
  | v :: l' => fold_left b64_add l' v
  end.

Definition seq_dot (a b : list binary64) : binary64 :=
  seq_sum (map (fun p => b64_mul (fst p) (snd p)) (combine a b)).

Definition seq_reductions : Reductions := {|
  row_sum := seq_sum;
  blas_dot := seq_dot
|}.

(** No coefficients for a matrix that holds a NaN or an infinity; the
    minimum-norm solution when the two columns are proportional; Cramer's
    rule otherwise. *)
Definition normal_equations_lstsq
  (lhs : list (binary64 * binary64)) (rhs : list binary64) (rcond : binary64)
  : option (binary64 * binary64) :=
  if existsb (fun p => negb (b64_is_finite (fst p) && b64_is_finite (snd p)))
             lhs
  then None
  else
    let u := map fst lhs in
    let v := map snd lhs in
    let a := seq_dot u u in
    let b := seq_dot u v in
    let d := seq_dot v v in
    let r0 := seq_dot u rhs in
    let r1 := seq_dot v rhs in
    let det := b64_sub (b64_mul a d) (b64_mul b b) in
    if SFeqb det (S754_zero false)
    then Some (b64_div r0 (b64_add a d), b64_div r1 (b64_add a d))
    else Some (b64_div (b64_sub (b64_mul r0 d) (b64_mul b r1)) det,
               b64_div (b64_sub (b64_mul a r1) (b64_mul b r0)) det).

Definition normal_equations : LeastSquares := {|
  lstsq := normal_equations_lstsq
|}.

(** *** Three small frames *)

(** Three points on the line y = 2 x + 1. *)
Definition frame_line : DataFrame binary64 :=
  [(b64_of_Z 0, b64_of_Z 1); (b64_of_Z 1, b64_of_Z 3);
   (b64_of_Z 2, b64_of_Z 5)].

(** Two points with one x value. *)
Definition frame_constant_x : DataFrame binary64 :=
  [(b64_of_Z 1, b64_of_Z 2); (b64_of_Z 1, b64_of_Z 3)].

(** Two points with one y value. *)
Definition frame_constant_y : DataFrame binary64 :=
  [(b64_of_Z 0, b64_of_Z 0); (b64_of_Z 1, b64_of_Z 0)].


(** Two points on the line y = 2^-600 x, at x = 2^600 and x = 2^601. *)
Definition frame_huge_x : DataFrame binary64 :=
  [(S754_finite false 4503599627370496 548, b64_of_Z 1);
   (S754_finite false 4503599627370496 549, b64_of_Z 2)].

(** *** The reference the specification names: ordinary least squares

    Written from the specification's words, slope = Cov(x,y)/Var(x) and
    intercept = mean(y) - slope * mean(x), in exact rational arithmetic,
    to be compared with what [np.polyfit] returns. *)

(** The rational number a finite double stands for. *)
Definition b64_to_Q (v : binary64) : Q :=
  match v with
  | S754_finite s m e =>
      let q := (inject_Z (Zpos m) * Qpower (2 # 1) e)%Q in
      if s then Qopp q else q
  | _ => 0%Q
  end.

Definition Qsum (l : list Q) : Q := fold_right Qplus 0%Q l.

Definition ols_mean (l : list Q) : Q :=
  (Qsum l / inject_Z (Z.of_nat (List.length l)))%Q.

Definition ols_cov (xs ys : list Q) : Q :=
  (Qsum (map (fun p => (fst p - ols_mean xs) * (snd p - ols_mean ys))
             (combine xs ys))
   / inject_Z (Z.of_nat (List.length xs)))%Q.

Definition ols_var (xs : list Q) : Q := ols_cov xs xs.

Definition ols_slope (xs ys : list Q) : Q := (ols_cov xs ys / ols_var xs)%Q.


(** ** Cell 7: the text summary, on binary64 values *)

Open Scope string_scope.
Open Scope Z_scope.

Definition digit (z : Z) : ascii := ascii_of_nat (48 + Z.to_nat z).

Arguments digit : simpl never.

(** The decimal digits of a non-negative integer, most significant first. *)
Fixpoint int_digits (fuel : nat) (z : Z) : string :=
  match fuel with
  | O => String (digit (z mod 10)) ""
  | S fuel' =>
      if z <? 10 then String (digit z) ""
      else int_digits fuel' (z / 10) ++ String (digit (z mod 10)) ""
  end.

Definition digits_of (z : Z) : string := int_digits (Z.to_nat (Z.log2 z)) z.

(** [str(i)] for a Python int. *)
Definition str_int (i : Z) : string :=
  if i <? 0 then "-" ++ digits_of (- i) else digits_of i.

(** The last [d] decimal digits of [r], zero padded. *)
Fixpoint frac_digits (d : nat) (r : Z) : string :=
  match d with
  | O => ""
  | S d' => frac_digits d' (r / 10) ++ String (digit (r mod 10)) ""
  end.

(** [m * 2^e * 10^d] rounded to the nearest integer, ties to even. *)
Definition scaled_round (m : positive) (e : Z) (d : nat) : Z :=
  let num := Zpos m * 10 ^ Z.of_nat d in
  if 0 <=? e then num * 2 ^ e
  else
    let den := 2 ^ (- e) in
    let q := num / den in
    let r := num mod den in
    match 2 * r ?= den with
    | Lt => q
    | Gt => q + 1
    | Eq => if Z.even q then q else q + 1
    end.

(** The integer [N], read as [N * 10^-d], written in fixed notation. *)
Definition fixed_notation (neg : bool) (N : Z) (d : nat) : string :=
  (if neg then "-" else "") ++
  digits_of (N / 10 ^ Z.of_nat d) ++
  match d with
  | O => ""
  | S _ => "." ++ frac_digits d (N mod 10 ^ Z.of_nat d)
  end.

(** [format(v, ".<d>f")]: the exact binary value correctly rounded to [d]
    decimals; the sign of a negative float is kept even when the digits
    round to zero; NaN and the infinities have no digits. *)
Definition format_f (d : nat) (v : binary64) : string :=
  match v with
  | S754_nan => "nan"
  | S754_infinity s => if s then "-inf" else "inf"
  | S754_zero s => fixed_notation s 0 d
  | S754_finite s m e => fixed_notation s (scaled_round m e d) d
  end.

Definition nl : string := String (ascii_of_nat 10) "".

(** *** Recognising fixed notation with [d] decimals

    An optional minus sign, one or more digits, a point, exactly [d]
    digits. *)

Definition is_digit (c : ascii) : bool :=
  (48 <=? nat_of_ascii c)%nat && (nat_of_ascii c <=? 57)%nat.

Fixpoint all_digits (s : string) : bool :=
  match s with
  | "" => true
  | String c s' => is_digit c && all_digits s'
  end.

Fixpoint split_at_dot (s : string) : option (string * string) :=
  match s with
  | "" => None
  | String c s' =>
      if Ascii.eqb c "." then Some ("", s')
      else match split_at_dot s' with
           | Some (ip, fp) => Some (String c ip, fp)
           | None => None
           end
  end.

Definition unsigned_part (s : string) : string :=
  match s with
  | String c s' => if Ascii.eqb c "-" then s' else s
  | "" => ""
  end.

Definition fixed_decimalsb (d : nat) (s : string) : bool :=
  match split_at_dot (unsigned_part s) with
  | Some (ip, fp) =>
      negb (String.eqb ip "") && all_digits ip && all_digits fp
      && Nat.eqb (String.length fp) d
  | None => false
  end.

Section Summary.

(** [str(v)] for a float (the shortest digit string that reads back as
    [v]); its algorithm is not needed here. *)
Variable float_str : binary64 -> string.

(** The f-string handed to [mo.md] by cell 7. *)
Definition cell7 (n : Z) (noise corr m b : binary64) : string :=
  nl ++
  "        ### Live summary" ++ nl ++
  "        - **n** = " ++ str_int n ++ nl ++
  "        - **σ** = " ++ float_str noise ++ nl ++
  "        - **Correlation** `corr(x, y)` ≈ **" ++ format_f 3 corr ++ "**" ++ nl ++
  "        - **Fitted model**: \(\hat{y} = " ++ format_f 2 m ++ "\,x + " ++
      format_f 2 b ++ "\)" ++ nl ++
  "        " ++ nl ++
  "        **Interpretation.**" ++ nl ++
  "        Increasing noise (σ) weakens the linear relationship (reduces |corr|) and" ++ nl ++
  "        makes the fitted line less predictive; increasing n stabilizes estimates." ++ nl ++
  "        ".

End Summary.

Close Scope Z_scope.
Close Scope string_scope.

(** ** Further definitions: the stream, the slider ranges, cell 6, reading
    numbers back *)

(** *** The stream of standard-normal draws behind [draws] *)

Section RawStream.

Context {F : Type} {BG : BitGenerator F}.

(** The first [k] values the sampler returns from state [g], and the
    state it is left in. *)
Fixpoint raw_draws (k : nat) (g : bitgen) : list F * bitgen :=
  match k with
  | O => ([], g)
  | S k' =>
      let (z, g1) := standard_normal g in
      let (rest, g2) := raw_draws k' g1 in
      (z :: rest, g2)
  end.

End RawStream.

(** *** Values a slider can hold: those between [start] and [stop] *)

Definition int_in_range (s : slider Z) (v : Z) : bool :=
  (start s <=? v)%Z && (v <=? stop s)%Z.

(** marimo refuses a value with [value < start or value > stop]. *)
Definition b64_in_range (s : slider binary64) (v : binary64) : bool :=
  negb (SFltb v (start s)) && negb (SFltb (stop s) v).

(** *** Cell 6: the figure, on binary64

    [df["x"].min()] and [df["x"].max()] end in a reduction of the column
    by a compiled kernel ([np.minimum.reduce] and [np.maximum.reduce], or
    bottleneck's [nanmin] and [nanmax] where pandas finds that package).
    Which of several equal values the kernel returns (of the two zeros
    -0.0 and 0.0, say) depends on the kernel, so the two reductions are
    parameters. *)

Class Extrema : Type := {
  min_reduce : list binary64 -> binary64;
  max_reduce : list binary64 -> binary64
}.

(** What cell 6 relies on: of a non-empty array that holds no NaN the
    reductions return an element, one that is below (above) every
    element. *)
Class ExtremaLaws (EX : Extrema) : Prop := {
  min_reduce_in : forall l,
    l <> [] -> existsb b64_isnan l = false -> In (min_reduce l) l;
  min_reduce_le : forall l u,
    existsb b64_isnan l = false -> In u l -> SFleb (min_reduce l) u = true;
  max_reduce_in : forall l,
    l <> [] -> existsb b64_isnan l = false -> In (max_reduce l) l;
  max_reduce_ge : forall l u,
    existsb b64_isnan l = false -> In u l -> SFleb u (max_reduce l) = true
}.

Arguments min_reduce_in {EX _} l _ _.
Arguments min_reduce_le {EX _} l u _ _.
Arguments max_reduce_in {EX _} l _ _.
Arguments max_reduce_ge {EX _} l u _ _.

(** [np.linspace(start, stop, num)] with the end point included.  With
    [div = num - 1] and [delta = stop - start]: sample [i] is
    [i * step + start] for [step = delta / div], or [(i / div) * delta +
    start] when that step is zero; the last sample is then overwritten by
    [stop].  (For [num = 1] the only sample is [0 * delta + start].) *)
Definition np_linspace (start stop : binary64) (num : nat) : list binary64 :=
  let delta := b64_sub stop start in
  match num with
  | O => []
  | S O => [b64_add (b64_mul (b64_of_nat 0) delta) start]
  | S div =>
      let d := b64_of_nat div in
      let step := b64_div delta d in
      let sample :=
        if SFeqb step (S754_zero false)
        then fun i => b64_add (b64_mul (b64_div (b64_of_nat i) d) delta) start
        else fun i => b64_add (b64_mul (b64_of_nat i) step) start in
      map sample (seq 0 div) ++ [stop]
  end.

(** What cell 6 hands to matplotlib. *)
Record Figure : Type := mk_figure {
  scatter_x : list binary64;
  scatter_y : list binary64;
  scatter_alpha : binary64;
  scatter_s : Z;
  line_x : list binary64;
  line_y : list binary64;
  line_width : Z;
  title : string;
  xlabel : string;
  ylabel : string
}.

Section Plot.

Context {EX : Extrema}.

(** The NaN of a column replaced by [fill]. *)
Definition fill_nan (fill : binary64) (l : list binary64) : list binary64 :=
  map (fun v => if b64_isnan v then fill else v) l.

(** [s.min()] and [s.max()] of a column, NaN skipped: NaN when no value is
    left (so on an empty column); otherwise each NaN is replaced by +inf
    (by -inf for the maximum) and the column is reduced. *)
Definition series_min (l : list binary64) : binary64 :=
  if forallb b64_isnan l then S754_nan
  else min_reduce (fill_nan (S754_infinity false) l).

Definition series_max (l : list binary64) : binary64 :=
  if forallb b64_isnan l then S754_nan
  else max_reduce (fill_nan (S754_infinity true) l).

Definition cell6 (df : DataFrame binary64) (m b : binary64) : Figure :=
  let xs := np_linspace (series_min (col_x df)) (series_max (col_x df)) 200 in
  mk_figure (col_x df) (col_y df) (b64_lit 3 1) 18
            xs (map (fun v => b64_add (b64_mul m v) b) xs) 2
            "Scatter of y vs. x with fitted line" "x" "y".

End Plot.

(** *** Reductions to run cell 6 with: from left to right, the value held
    is kept on a tie *)

Definition np_minimum (a b : binary64) : binary64 :=
  if SFleb a b || b64_isnan a then a else b.

Definition np_maximum (a b : binary64) : binary64 :=
  if SFleb b a || b64_isnan a then a else b.

Definition reduce (f : binary64 -> binary64 -> binary64) (l : list binary64)
  : binary64 :=
  match l with
  | [] => S754_nan
  | v :: l' => fold_left f l' v
  end.

Definition seq_extrema : Extrema := {|
  min_reduce := reduce np_minimum;
  max_reduce := reduce np_maximum
|}.

(** *** Reading the digits of cell 7 back *)

Open Scope Z_scope.

Definition digit_val (c : ascii) : Z := Z.of_nat (nat_of_ascii c) - 48.

Arguments digit_val : simpl never.

(** The number written by a string of digits, after the digits in [acc]. *)
Fixpoint digits_value_acc (acc : Z) (s : string) : Z :=
  match s with
  | EmptyString => acc
  | String c s' => digits_value_acc (10 * acc + digit_val c) s'
  end.

Definition digits_value (s : string) : Z := digits_value_acc 0 s.

(** A number in fixed notation read as (negative?, the integer its digits
    write, the count of decimals): "-12.345" is (true, 12345, 3). *)
Definition parse_fixed (s : string) : option (bool * Z * nat) :=
  let neg := match s with
             | String c _ => Ascii.eqb c "-"
             | EmptyString => false
             end in
  match split_at_dot (unsigned_part s) with
  | Some (ip, fp) =>
      if negb (String.eqb ip "") && all_digits ip && all_digits fp
      then Some (neg, digits_value (ip ++ fp), String.length fp)
      else None
  | None => None
  end.

Close Scope Z_scope.

(** * Properties *)

Unset Implicit Arguments.

(** ** The two arithmetics satisfy the law *)

#[export] Instance binary64_laws : PyFloatLaws binary64.
Proof. constructor. reflexivity. Qed.

#[export] Instance real_laws : PyFloatLaws R.
Proof.
  constructor. simpl. unfold R_is_negative.
  destruct (Rlt_dec 1 0) as [H | H]; [lra | reflexivity].
Qed.

(** ** Facts about lists used throughout *)

Lemma combine_fst {A B} (a : list A) (b : list B) :
  List.length a = List.length b -> map fst (combine a b) = a.
Proof.
  revert b. induction a as [| u a IH]; intros [| v b] H; simpl in *;
    try reflexivity; try discriminate.
  f_equal. apply IH. now injection H.
Qed.

Lemma combine_snd {A B} (a : list A) (b : list B) :
  List.length a = List.length b -> map snd (combine a b) = b.
Proof.
  revert b. induction a as [| u a IH]; intros [| v b] H; simpl in *;
    try reflexivity; try discriminate.
  f_equal. apply IH. now injection H.
Qed.

(** ** Cell 4 *)

Section GenerationFacts.

Context {F : Type} {PF : PyFloat F} {PL : PyFloatLaws F} {BG : BitGenerator F}.

Lemma draws_length (k : nat) (loc scale : F) (g : bitgen) :
  List.length (fst (draws k loc scale g)) = k.
Proof.
  revert g. induction k as [| k IH]; intros g; simpl; [reflexivity |].
  destruct (standard_normal g) as [z g1].
  specialize (IH g1). destruct (draws k loc scale g1) as [rest g2].
  simpl in *. now rewrite IH.
Qed.

(** The generator advances by the number of draws, whatever the location
    and the scale. *)
Lemma draws_state (k : nat) (loc scale loc' scale' : F) (g : bitgen) :
  snd (draws k loc scale g) = snd (draws k loc' scale' g).
Proof.
  revert g. induction k as [| k IH]; intros g; simpl; [reflexivity |].
  destruct (standard_normal g) as [z g1].
  specialize (IH g1).
  destruct (draws k loc scale g1) as [r1 h1].
  destruct (draws k loc' scale' g1) as [r2 h2].
  exact IH.
Qed.

Lemma x_sample_length (n : Z) : List.length (x_sample n) = Z.to_nat n.
Proof. apply draws_length. Qed.

Lemma noise_sample_length (n : Z) (noise : F) :
  List.length (noise_sample n noise) = Z.to_nat n.
Proof. apply draws_length. Qed.

Lemma y_sample_length (n : Z) (noise : F) :
  List.length (y_sample n noise) = Z.to_nat n.
Proof.
  unfold y_sample, scalar_mul.
  rewrite length_map, length_combine, length_map.
  rewrite x_sample_length, noise_sample_length. apply Nat.min_id.
Qed.

(** On a non-negative size and a scale that passes the check, cell 4
    returns the frame of [x_sample] and [y_sample], from any state of the
    generator it finds. *)
Lemma cell4_ok (n : Z) (noise : F) (g : bitgen) :
  (0 <= n)%Z -> is_negative noise = false ->
  cell4 n noise g =
  Ok (combine (x_sample n) (y_sample n noise), rng_after_noise n noise).
Proof.
  intros Hn Hs.
  assert (Hlt : (n <? 0)%Z = false) by (apply Z.ltb_ge; exact Hn).
  unfold cell4, bind, seed_rng, normal, lift, ret.
  rewrite unit_scale_ok, Hlt, Hs.
  pose proof (x_sample_length n) as Lx.
  pose proof (noise_sample_length n noise) as Le.
  pose proof (y_sample_length n noise) as Ly.
  unfold y_sample, noise_sample, rng_after_noise, rng_after_x, x_sample in *.
  destruct (draws (Z.to_nat n) (float_of_int 0) (float_of_int 1)
                  (default_rng 123)) as [xs g1].
  simpl in *.
  destruct (draws (Z.to_nat n) (float_of_int 0) noise g1) as [es g2].
  simpl in *.
  unfold array_add, scalar_mul in *.
  rewrite length_map, Lx, Le, Nat.eqb_refl.
  unfold pd_DataFrame. rewrite Ly, Lx, Nat.eqb_refl.
  reflexivity.
Qed.

(** A negative size is refused by the first call of [normal]. *)
Lemma cell4_negative_size (n : Z) (noise : F) (g : bitgen) :
  (n < 0)%Z ->
  cell4 n noise g = Raise (ValueError "negative dimensions are not allowed").
Proof.
  intros Hn.
  assert (Hlt : (n <? 0)%Z = true) by (apply Z.ltb_lt; exact Hn).
  unfold cell4, bind, seed_rng, normal.
  now rewrite unit_scale_ok, Hlt.
Qed.

End GenerationFacts.

(** Cell 4 starts by rebinding [rng] to a generator seeded with 123, so
    nothing of the generator it finds reaches its result. *)
Lemma cell4_ignores_previous_rng
  {F : Type} {PF : PyFloat F} {BG : BitGenerator F}
  (n : Z) (noise : F) (g1 g2 : bitgen) :
  cell4 n noise g1 = cell4 n noise g2.
Proof. reflexivity. Qed.

(** C1.  For every valid pair (sample size [n > 0], noise [sigma >= 0])
    the generation step succeeds, and two invocations (started from any
    two generator states, in particular the second from the state the
    first one left) return the same data frame, float for float, because
    the generator is seeded with 123 on each invocation.  The values
    cell 5 derives from the frame (correlation, slope, intercept) are then
    the same too, as is a failure of their computation. *)
Theorem generation_deterministic :
  (forall (F : Type) (PF : PyFloat F) (PL : PyFloatLaws F)
          (BG : BitGenerator F) (n : Z) (noise : F) (g1 g2 : bitgen),
      (0 < n)%Z -> is_negative noise = false ->
      exists df g',
        cell4 n noise g1 = Ok (df, g') /\
        cell4 n noise g2 = Ok (df, g') /\
        cell4 n noise g' = Ok (df, g'))
  /\
  (forall (BG : BitGenerator binary64) (RD : Reductions) (LS : LeastSquares)
          (n : Z) (noise : binary64) (g1 g2 : bitgen),
      generate_and_analyze n noise g1 = generate_and_analyze n noise g2).
Proof.
  split.
  - intros F PF PL BG n noise g1 g2 Hn Hs.
    exists (combine (x_sample n) (y_sample n noise)),
           (rng_after_noise n noise).
    repeat split; apply cell4_ok; solve [lia | exact Hs].
  - intros BG RD LS n noise g1 g2. unfold generate_and_analyze.
    now rewrite (cell4_ignores_previous_rng n noise g1 g2).
Qed.

Lemma generation_deterministic_witness :
  exists df g',
    @cell4 binary64 _ lcg_b64 1000 (b64_lit 5 1) 0%Z = Ok (df, g') /\
    @cell4 binary64 _ lcg_b64 1000 (b64_lit 5 1) 42%Z = Ok (df, g') /\
    @cell4 binary64 _ lcg_b64 1000 (b64_lit 5 1) g' = Ok (df, g').
Proof.
  apply (proj1 generation_deterministic binary64 _ _ lcg_b64
               1000%Z (b64_lit 5 1) 0%Z 42%Z).
  - lia.
  - reflexivity.
Defined.

(** C2.  For every valid sample size [n] and noise [sigma] the frame
    produced by the generation step has exactly [n] rows: its x column
    and its y column both have length [n]. *)
Theorem cell4_row_count :
  forall (F : Type) (PF : PyFloat F) (PL : PyFloatLaws F)
         (BG : BitGenerator F) (n : Z) (noise : F) (g : bitgen),
    (0 < n)%Z -> is_negative noise = false ->
    exists df g',
      cell4 n noise g = Ok (df, g') /\
      Z.of_nat (List.length (col_x df)) = n /\
      Z.of_nat (List.length (col_y df)) = n /\
      Z.of_nat (List.length df) = n.
Proof.
  intros F PF PL BG n noise g Hn Hs.
  exists (combine (x_sample n) (y_sample n noise)),
         (rng_after_noise n noise).
  split; [apply cell4_ok; [lia | exact Hs] |].
  unfold col_x, col_y. rewrite !length_map, length_combine.
  rewrite x_sample_length, y_sample_length, Nat.min_id.
  repeat split; apply Z2Nat.id; lia.
Qed.

Lemma cell4_row_count_witness :
  exists df g',
    @cell4 binary64 _ lcg_b64 1000 (b64_lit 5 1) 0%Z = Ok (df, g') /\
    Z.of_nat (List.length (col_x df)) = 1000%Z /\
    Z.of_nat (List.length (col_y df)) = 1000%Z /\
    Z.of_nat (List.length df) = 1000%Z.
Proof.
  apply (@cell4_row_count binary64 _ _ lcg_b64 1000%Z (b64_lit 5 1) 0%Z).
  - lia.
  - reflexivity.
Defined.

(** C10.  For a fixed valid sample size [n] the x column does not depend
    on the noise: x is drawn first from the generator freshly seeded with
    123, so two runs with noises [sigma1] and [sigma2] return the same x
    column, float for float (it is [x_sample n]); the generator also ends
    in the same state. *)
Theorem x_column_independent_of_noise :
  forall (F : Type) (PF : PyFloat F) (PL : PyFloatLaws F)
         (BG : BitGenerator F) (n : Z) (sigma1 sigma2 : F) (g1 g2 : bitgen),
    (0 < n)%Z ->
    is_negative sigma1 = false -> is_negative sigma2 = false ->
    exists df1 df2 g',
      cell4 n sigma1 g1 = Ok (df1, g') /\
      cell4 n sigma2 g2 = Ok (df2, g') /\
      col_x df1 = x_sample n /\
      col_x df2 = col_x df1.
Proof.
  intros F PF PL BG n s1 s2 g1 g2 Hn H1 H2.
  exists (combine (x_sample n) (y_sample n s1)),
         (combine (x_sample n) (y_sample n s2)),
         (rng_after_noise n s1).
  assert (E : forall s, map fst (combine (x_sample n) (y_sample n s))
                        = x_sample n).
  { intros s. apply combine_fst.
    now rewrite x_sample_length, y_sample_length. }
  repeat split.
  - apply cell4_ok; [lia | exact H1].
  - rewrite cell4_ok by (lia || exact H2).
    unfold rng_after_noise.
    now rewrite (draws_state _ (float_of_int 0) s2 (float_of_int 0) s1).
  - apply E.
  - unfold col_x. now rewrite !E.
Qed.

Lemma x_column_independent_of_noise_witness :
  exists df1 df2 g',
    @cell4 binary64 _ lcg_b64 100 (b64_lit 0 1) 7%Z = Ok (df1, g') /\
    @cell4 binary64 _ lcg_b64 100 (b64_lit 20 1) 9%Z = Ok (df2, g') /\
    col_x df1 = @x_sample binary64 _ lcg_b64 100 /\
    col_x df2 = col_x df1.
Proof.
  apply (@x_column_independent_of_noise binary64 _ _ lcg_b64 100%Z
            (b64_lit 0 1) (b64_lit 20 1) 7%Z 9%Z).
  - lia.
  - reflexivity.
  - reflexivity.
Defined.

(** C4, as the code has it.  The generation step has no check of its
    own on the sample size.  A negative size fails inside numpy with
    ValueError (negative dimensions are not allowed); size 0 with a valid
    noise does not fail, it returns the empty data frame and leaves the
    generator freshly seeded. *)
Theorem nonpositive_size_behaviour :
  forall (F : Type) (PF : PyFloat F) (PL : PyFloatLaws F)
         (BG : BitGenerator F) (n : Z) (noise : F) (g : bitgen),
    ((n < 0)%Z ->
     cell4 n noise g =
     Raise (ValueError "negative dimensions are not allowed"))
    /\
    (n = 0%Z -> is_negative noise = false ->
     cell4 n noise g = Ok ([], default_rng 123)).
Proof.
  intros F PF PL BG n noise g. split.
  - apply cell4_negative_size.
  - intros -> Hs. rewrite cell4_ok by (lia || exact Hs). reflexivity.
Qed.

Lemma nonpositive_size_behaviour_witness :
  @cell4 binary64 _ lcg_b64 (-5) (b64_lit 5 1) 0%Z =
    Raise (ValueError "negative dimensions are not allowed")
  /\ @cell4 binary64 _ lcg_b64 0 (b64_lit 5 1) 0%Z = Ok ([], 123%Z).
Proof.
  split.
  - apply (proj1 (@nonpositive_size_behaviour binary64 _ _ lcg_b64
                    (-5)%Z (b64_lit 5 1) 0%Z)).
    lia.
  - apply (proj2 (@nonpositive_size_behaviour binary64 _ _ lcg_b64
                    0%Z (b64_lit 5 1) 0%Z)).
    + reflexivity.
    + reflexivity.
Defined.

(** C4 as stated fails: with sample size 0 (and noise 0.5) the generation
    step raises nothing, it returns an empty data frame. *)
Lemma zero_size_returns_empty_frame :
  (0 <= 0)%Z /\
  is_ok (@cell4 binary64 _ lcg_b64 0 (b64_lit 5 1) 0%Z) = true /\
  @cell4 binary64 _ lcg_b64 0 (b64_lit 5 1) 0%Z = Ok ([], 123%Z).
Proof. repeat split. lia. Qed.

(** ** Cell 3 *)

(** C9.  The two controls are built with the documented ranges: the
    sample size runs over [100, 5000] in steps of 100 and starts at 1000;
    the noise runs over [0.0, 2.0] in steps of 0.1 and starts at 0.5 (as
    real numbers, and as the doubles nearest to these decimals). *)
Theorem controls_ranges :
  fst (@cell3 R _) =
    mk_slider 100%Z 5000%Z 100%Z 1000%Z "Sample size n"
  /\ snd (@cell3 R _) = mk_slider 0%R 2%R (1 / 10)%R (1 / 2)%R "Noise σ"
  /\ snd (@cell3 binary64 _) =
       mk_slider (S754_zero false)
                 (S754_finite false 4503599627370496 (-51))
                 (S754_finite false 7205759403792794 (-56))
                 (S754_finite false 4503599627370496 (-53))
                 "Noise σ".
Proof.
  split; [reflexivity | split; [| reflexivity]].
  unfold cell3. cbn [snd float_lit real_float].
  change (10 ^ Z.of_nat 1)%Z with 10%Z.
  f_equal; lra.
Qed.

(** ** Cell 5 *)

Section StatisticsFacts.

Context {RD : Reductions} {LS : LeastSquares}.

Lemma SFltb_leb (a b : binary64) : SFltb a b = true -> SFleb a b = true.
Proof.
  unfold SFltb, SFleb. destruct (SFcompare a b) as [[| |] |];
    intros H; try discriminate; reflexivity.
Qed.

(** What [np.clip(v, -1, 1)] returns is NaN or lies in [-1, 1]. *)
Lemma np_clip_unit (v : binary64) :
  let r := np_clip (b64_of_Z (-1)) (b64_of_Z 1) v in
  b64_isnan r = true \/
  (SFleb (b64_of_Z (-1)) r = true /\ SFleb r (b64_of_Z 1) = true).
Proof.
  cbv zeta. unfold np_clip, clip_max.
  destruct (b64_isnan v) eqn:Hn.
  - left. cbn [orb]. unfold clip_min. now rewrite Hn.
  - cbn [orb]. destruct (SFltb (b64_of_Z (-1)) v) eqn:E1.
    + unfold clip_min. rewrite Hn. cbn [orb].
      destruct (SFltb v (b64_of_Z 1)) eqn:E2.
      * right. split; now apply SFltb_leb.
      * right. split; reflexivity.
    + right. split; reflexivity.
Qed.

Lemma series_corr_unit (a b : list binary64) :
  b64_isnan (series_corr a b) = true \/
  (SFleb (b64_of_Z (-1)) (series_corr a b) = true /\
   SFleb (series_corr a b) (b64_of_Z 1) = true).
Proof.
  unfold series_corr.
  destruct (Nat.eqb (List.length a) 0); [now left |].
  destruct (Nat.ltb (List.length (valid_rows a b)) 1); [now left |].
  apply np_clip_unit.
Qed.

Lemma cols_same_length (df : DataFrame binary64) :
  List.length (col_x df) = List.length (col_y df).
Proof. unfold col_x, col_y. now rewrite !length_map. Qed.

(** On the columns of a non-empty frame [np.polyfit] passes its two
    checks and reaches the solver. *)
Lemma np_polyfit_system_ok (df : DataFrame binary64) :
  df <> [] ->
  exists lhs rhs rcond scale0 scale1,
    np_polyfit_system (col_x df) (col_y df) =
      Ok (lhs, rhs, rcond, (scale0, scale1)) /\
    List.length lhs = List.length df /\
    List.length rhs = List.length df.
Proof.
  intros Hne. unfold np_polyfit_system.
  rewrite !length_map. rewrite <- (cols_same_length df), Nat.eqb_refl.
  assert (E : Nat.eqb (List.length (col_x df)) 0 = false).
  { destruct df; [congruence | reflexivity]. }
  rewrite E. cbn [negb].
  do 5 eexists. split; [reflexivity |].
  unfold col_x, col_y. now rewrite !length_map.
Qed.

End StatisticsFacts.


Lemma divided_by_infinity (c : binary64) (s : bool) :
  SFeqb (b64_div c (S754_infinity s)) (S754_zero false) = true \/
  b64_isnan (b64_div c (S754_infinity s)) = true.
Proof. destruct c; cbn; auto. Qed.

(** What [np.polyfit] hands the solver, and what it makes of the
    solver's coefficients. *)
Lemma cell5_fit_shape (RD : Reductions) (LS : LeastSquares)
  (df : DataFrame binary64) (fit : FitResult) :
  cell5 df = Ok fit ->
  let x0 := map (fun v => b64_add v (S754_zero false)) (col_x df) in
  let y0 := map (fun v => b64_add v (S754_zero false)) (col_y df) in
  let scale0 := b64_sqrt (column_sum (map (fun v => b64_mul v v) x0)) in
  let scale1 :=
    b64_sqrt (column_sum
                (map (fun _ => b64_mul (b64_of_Z 1) (b64_of_Z 1)) x0)) in
  let lhs :=
    map (fun v => (b64_div v scale0, b64_div (b64_of_Z 1) scale1)) x0 in
  let rcond := b64_mul (b64_of_nat (List.length (col_x df))) b64_eps in
  exists c0 c1,
    lstsq lhs y0 rcond = Some (c0, c1) /\
    m fit = b64_div c0 scale0 /\
    b fit = b64_div c1 scale1.
Proof.
  intros H. cbv zeta. unfold cell5, np_polyfit in H.
  destruct (np_polyfit_system (col_x df) (col_y df))
    as [[[[lhs rhs] rcond] [s0 s1]] | e] eqn:E; [| discriminate].
  destruct (lstsq lhs rhs rcond) as [[c0 c1] |] eqn:EL; [| discriminate].
  injection H as <-.
  revert E. unfold np_polyfit_system. cbv zeta. rewrite !length_map.
  destruct (Nat.eqb (List.length (col_x df)) 0); [discriminate |].
  destruct (negb (Nat.eqb (List.length (col_x df))
                          (List.length (col_y df)))); [discriminate |].
  intros E. injection E as <- <- <- <- <-.
  exists c0, c1. now split.
Qed.




(** The same on the other side: on [(2^600, 1); (2^601, 2)], whose points
    lie on the line y = 2^-600 x, the squares of x overflow, the scale is
    infinite, and the slope of cell 5 is zero or NaN. *)
Example huge_x_slope_zero :
  let xs := map b64_to_Q (col_x frame_huge_x) in
  let ys := map b64_to_Q (col_y frame_huge_x) in
  Qeq_bool (ols_slope xs ys)
           (b64_to_Q (S754_finite false 4503599627370496 (-652))) = true /\
  (forall (RD : Reductions) (LS : LeastSquares),
      match cell5 frame_huge_x with
      | Ok fit =>
          SFeqb (m fit) (S754_zero false) = true \/ b64_isnan (m fit) = true
      | Raise _ => True
      end).
Proof.
  cbv zeta. split; [vm_compute; reflexivity |].
  intros RD LS.
  destruct (cell5 frame_huge_x) as [fit | e] eqn:E; [| exact I].
  pose proof (cell5_fit_shape RD LS frame_huge_x fit E) as S.
  cbv zeta in S. destruct S as (c0 & c1 & _ & Hm & _).
  rewrite Hm.
  replace (b64_sqrt _) with (S754_infinity false) by (vm_compute; reflexivity).
  apply divided_by_infinity.
Qed.

(** C6, as the code has it.  For every data frame the correlation that
    cell 5 computes is NaN or a double between -1 and 1: [np.corrcoef]
    clips it.  It holds for any order in which the sums are accumulated. *)
Theorem correlation_bounded :
  forall (RD : Reductions) (LS : LeastSquares) (df : DataFrame binary64),
    (b64_isnan (series_corr (col_x df) (col_y df)) = true \/
     (SFleb (b64_of_Z (-1)) (series_corr (col_x df) (col_y df)) = true /\
      SFleb (series_corr (col_x df) (col_y df)) (b64_of_Z 1) = true))
    /\
    match cell5 df with
    | Ok fit =>
        b64_isnan (corr fit) = true \/
        (SFleb (b64_of_Z (-1)) (corr fit) = true /\
         SFleb (corr fit) (b64_of_Z 1) = true)
    | Raise _ => True
    end.
Proof.
  intros RD LS df. split; [apply series_corr_unit |].
  unfold cell5.
  destruct (np_polyfit (col_x df) (col_y df)) as [[m0 b0] | e];
    [| exact I].
  cbn [corr]. apply series_corr_unit.
Qed.

(** C6 as stated fails: the frame [(0, 0); (1, 0)] has 2 rows and the
    variance 0.5 of x, and the correlation cell 5 returns for it is NaN,
    which is not of magnitude at most 1. *)
Lemma constant_y_correlation_nan :
  (2 <= List.length frame_constant_y)%nat /\
  @np_cov seq_reductions (col_x frame_constant_y) (col_x frame_constant_y)
    = b64_lit 5 1 /\
  @series_corr seq_reductions (col_x frame_constant_y) (col_y frame_constant_y)
    = S754_nan /\
  SFleb (SFabs (@series_corr seq_reductions (col_x frame_constant_y)
                  (col_y frame_constant_y))) (b64_of_Z 1) = false /\
  match @cell5 seq_reductions normal_equations frame_constant_y with
  | Ok fit => corr fit = S754_nan
  | Raise _ => False
  end.
Proof.
  split; [vm_compute; lia |].
  split; [vm_compute; reflexivity |].
  split; [vm_compute; reflexivity |].
  split; vm_compute; reflexivity.
Qed.

(** A constant column does not always give NaN: the mean of three times
    0.1 is not 0.1 in binary64, the centred column is not zero, and the
    correlation with [1, 2, 3] is 0.0. *)
Example constant_column_correlation :
  @series_corr seq_reductions
     [b64_lit 1 1; b64_lit 1 1; b64_lit 1 1]
     [b64_of_Z 1; b64_of_Z 2; b64_of_Z 3] = S754_zero false.
Proof. vm_compute. reflexivity. Qed.

(** C5, as the code has it.  Cell 5 has no check for degenerate data.
    On the empty frame [np.polyfit] fails with TypeError.  On every
    other frame, whatever the number of its rows and the variance of x,
    [np.polyfit] passes its own checks, scales the matrix and calls the
    least-squares solver; cell 5 returns a FitResult when the solver
    returns coefficients (the correlation beside them, NaN or not), and
    fails with LinAlgError when it does not. *)
Theorem degenerate_analysis :
  forall (RD : Reductions) (LS : LeastSquares) (df : DataFrame binary64),
    (df = [] ->
     cell5 df = Raise (TypeError "expected non-empty vector for x"))
    /\
    (df <> [] ->
     exists lhs rhs rcond scale0 scale1,
       np_polyfit_system (col_x df) (col_y df) =
         Ok (lhs, rhs, rcond, (scale0, scale1)) /\
       List.length lhs = List.length df /\
       cell5 df =
       match lstsq lhs rhs rcond with
       | Some (c0, c1) =>
           Ok (mk_fit (series_corr (col_x df) (col_y df))
                      (b64_div c0 scale0) (b64_div c1 scale1))
       | None =>
           Raise (LinAlgError "SVD did not converge in Linear Least Squares")
       end).
Proof.
  intros RD LS df. split.
  - intros ->. reflexivity.
  - intros Hne.
    destruct (np_polyfit_system_ok df Hne)
      as (lhs & rhs & rcond & s0 & s1 & E & L & _).
    exists lhs, rhs, rcond, s0, s1. split; [exact E |]. split; [exact L |].
    unfold cell5, np_polyfit. rewrite E.
    destruct (lstsq lhs rhs rcond) as [[c0 c1] |]; reflexivity.
Qed.

Lemma degenerate_analysis_witness :
  @cell5 seq_reductions normal_equations [] =
    Raise (TypeError "expected non-empty vector for x")
  /\
  exists lhs rhs rcond scale0 scale1,
    np_polyfit_system (col_x frame_constant_x) (col_y frame_constant_x) =
      Ok (lhs, rhs, rcond, (scale0, scale1)) /\
    List.length lhs = List.length frame_constant_x /\
    @cell5 seq_reductions normal_equations frame_constant_x =
    match normal_equations_lstsq lhs rhs rcond with
    | Some (c0, c1) =>
        Ok (mk_fit (@series_corr seq_reductions (col_x frame_constant_x)
                      (col_y frame_constant_x))
                   (b64_div c0 scale0) (b64_div c1 scale1))
    | None =>
        Raise (LinAlgError "SVD did not converge in Linear Least Squares")
    end.
Proof.
  split.
  - apply (proj1 (degenerate_analysis seq_reductions normal_equations [])).
    reflexivity.
  - apply (proj2 (degenerate_analysis seq_reductions normal_equations
                    frame_constant_x)).
    discriminate.
Defined.

(** C5 as stated fails: the frame [(1, 2); (1, 3)] has 2 rows and zero
    variance of x; cell 5 raises nothing for it.  The correlation is NaN,
    [np.polyfit] accepts the columns and hands the solver the matrix
    whose entries are all 1/sqrt(2), and with coefficients from the
    solver cell 5 returns a FitResult. *)
Lemma constant_x_returns_fit :
  @np_cov seq_reductions (col_x frame_constant_x) (col_x frame_constant_x)
    = S754_zero false /\
  @series_corr seq_reductions (col_x frame_constant_x) (col_y frame_constant_x)
    = S754_nan /\
  (exists rcond scale,
     np_polyfit_system (col_x frame_constant_x) (col_y frame_constant_x) =
     Ok ([(S754_finite false 6369051672525772 (-53),
           S754_finite false 6369051672525772 (-53));
          (S754_finite false 6369051672525772 (-53),
           S754_finite false 6369051672525772 (-53))],
         [b64_of_Z 2; b64_of_Z 3], rcond, scale)) /\
  is_ok (@cell5 seq_reductions normal_equations frame_constant_x) = true.
Proof.
  split; [vm_compute; reflexivity |].
  split; [vm_compute; reflexivity |].
  split; [| vm_compute; reflexivity].
  do 2 eexists. vm_compute. reflexivity.
Qed.

(** ** Cell 7 *)

Section SummaryFacts.

Open Scope string_scope.

Lemma string_length_app (s t : string) :
  String.length (s ++ t) = (String.length s + String.length t)%nat.
Proof. induction s as [| c s IH]; simpl; [reflexivity | now rewrite IH]. Qed.

Lemma all_digits_app (s t : string) :
  all_digits (s ++ t) = all_digits s && all_digits t.
Proof.
  induction s as [| c s IH]; simpl; [reflexivity |].
  now rewrite IH, andb_assoc.
Qed.

Lemma digit_is_digit (z : Z) : (z < 10)%Z -> is_digit (digit z) = true.
Proof.
  intros H. unfold digit.
  assert (Hk : (Z.to_nat z < 10)%nat) by lia.
  remember (Z.to_nat z) as k eqn:Ek. clear Ek H.
  do 10 (destruct k as [| k]; [reflexivity |]). lia.
Qed.

Lemma last_digit_is_digit (z : Z) : is_digit (digit (z mod 10)) = true.
Proof.
  apply digit_is_digit. pose proof (Z.mod_pos_bound z 10). lia.
Qed.

Lemma int_digits_all_digits (fuel : nat) (z : Z) :
  all_digits (int_digits fuel z) = true.
Proof.
  revert z. induction fuel as [| fuel IH]; intros z;
    cbn [int_digits all_digits].
  - now rewrite last_digit_is_digit.
  - destruct (z <? 10)%Z eqn:E.
    + cbn [all_digits]. rewrite digit_is_digit; [reflexivity |].
      now apply Z.ltb_lt.
    + rewrite all_digits_app, IH. cbn [all_digits].
      now rewrite last_digit_is_digit.
Qed.

Lemma int_digits_nonempty (fuel : nat) (z : Z) :
  exists c s, int_digits fuel z = String c s.
Proof.
  destruct fuel as [| fuel]; cbn [int_digits].
  - eexists. eexists. reflexivity.
  - destruct (z <? 10)%Z.
    + eexists. eexists. reflexivity.
    + destruct (int_digits fuel (z / 10)) as [| c s]; cbn [append];
        eexists; eexists; reflexivity.
Qed.

Lemma frac_digits_all_digits (d : nat) (r : Z) :
  all_digits (frac_digits d r) = true.
Proof.
  revert r. induction d as [| d IH]; intros r; cbn [frac_digits];
    [reflexivity |].
  rewrite all_digits_app, IH. cbn [all_digits].
  now rewrite last_digit_is_digit.
Qed.

Lemma frac_digits_length (d : nat) (r : Z) :
  String.length (frac_digits d r) = d.
Proof.
  revert r. induction d as [| d IH]; intros r; cbn [frac_digits];
    [reflexivity |].
  rewrite string_length_app, IH. cbn [String.length]. lia.
Qed.

Lemma digit_not_punctuation (c : ascii) :
  is_digit c = true -> Ascii.eqb c "." = false /\ Ascii.eqb c "-" = false.
Proof.
  intros H. split; apply Ascii.eqb_neq; intros ->; discriminate.
Qed.

Lemma split_at_dot_digits (ip fp : string) :
  all_digits ip = true ->
  split_at_dot (ip ++ String "." fp) = Some (ip, fp).
Proof.
  induction ip as [| c ip IH]; cbn [append split_at_dot all_digits];
    intros H; [reflexivity |].
  apply andb_prop in H. destruct H as [Hc Hip].
  destruct (digit_not_punctuation c Hc) as [-> _].
  now rewrite IH.
Qed.

(** Fixed notation with at least one decimal is recognised. *)
Lemma fixed_notation_shape (neg : bool) (N : Z) (d : nat) :
  (0 < d)%nat -> fixed_decimalsb d (fixed_notation neg N d) = true.
Proof.
  intros Hd. unfold fixed_notation, digits_of.
  destruct d as [| d]; [lia |].
  set (ip := int_digits _ _).
  set (fp := frac_digits _ _).
  assert (Hip : all_digits ip = true) by apply int_digits_all_digits.
  assert (Hfp : all_digits fp = true) by apply frac_digits_all_digits.
  assert (Hlen : String.length fp = S d) by apply frac_digits_length.
  destruct (int_digits_nonempty (Z.to_nat (Z.log2 (N / 10 ^ Z.of_nat (S d))))
              (N / 10 ^ Z.of_nat (S d))) as (c & s & Es).
  fold ip in Es.
  assert (Hc : is_digit c = true).
  { rewrite Es in Hip. cbn [all_digits] in Hip. now apply andb_prop in Hip. }
  destruct (digit_not_punctuation c Hc) as [_ Hminus].
  assert (Hu : unsigned_part ((if neg then "-" else "") ++ ip ++ "." ++ fp)
               = ip ++ String "." fp).
  { destruct neg; cbn [append]; [reflexivity |].
    rewrite Es. cbn [append unsigned_part]. now rewrite Hminus. }
  unfold fixed_decimalsb. rewrite Hu, split_at_dot_digits by exact Hip.
  rewrite Hip, Hfp, Hlen, Nat.eqb_refl, Es. reflexivity.
Qed.

(** A finite double formatted with [d >= 1] decimals has exactly [d]
    digits after the point. *)
Lemma format_f_finite (d : nat) (v : binary64) :
  (0 < d)%nat -> b64_is_finite v = true ->
  fixed_decimalsb d (format_f d v) = true.
Proof.
  intros Hd Hv. destruct v; try discriminate; cbn [format_f];
    now apply fixed_notation_shape.
Qed.

(** Rounding is to nearest on the exact binary value, ties to even, and
    the sign survives rounding to zero. *)
Example format_f_rounding :
  format_f 2 (b64_lit 2675 3) = "2.67" /\
  format_f 2 (b64_lit 125 3) = "0.12" /\
  format_f 2 (b64_lit 375 3) = "0.38" /\
  format_f 2 (b64_lit (-1) 4) = "-0.00" /\
  format_f 3 (b64_of_Z 1) = "1.000" /\
  str_int (-1000) = "-1000".
Proof. repeat split; vm_compute; reflexivity. Qed.

(** A report, in full: n = 1000, sigma = 0.5, correlation 0.98, fitted
    line 2.5 x - 0.01. *)
Example cell7_report :
  cell7 (fun _ => "0.5") 1000 (b64_lit 5 1)
        (b64_lit 98 2) (b64_lit 25 1) (b64_lit (-1) 2) =
  nl ++
  "        ### Live summary" ++ nl ++
  "        - **n** = 1000" ++ nl ++
  "        - **σ** = 0.5" ++ nl ++
  "        - **Correlation** `corr(x, y)` ≈ **0.980**" ++ nl ++
  "        - **Fitted model**: \(\hat{y} = 2.50\,x + -0.01\)" ++ nl ++
  "        " ++ nl ++
  "        **Interpretation.**" ++ nl ++
  "        Increasing noise (σ) weakens the linear relationship (reduces |corr|) and" ++ nl ++
  "        makes the fitted line less predictive; increasing n stabilizes estimates." ++ nl ++
  "        ".
Proof. vm_compute. reflexivity. Qed.

End SummaryFacts.

(** C8, as the code has it.  The report is a fixed text around five
    fields, in this order: the sample size, the noise, the correlation
    formatted with [.3f], the slope and the intercept formatted with
    [.2f].  When correlation, slope and intercept are finite floats their
    fields have exactly 3, 2 and 2 digits after the decimal point; a NaN
    is rendered as [nan], without decimals. *)
Theorem summary_format :
  (exists t0 t1 t2 t3 t4 t5 : string,
     forall (float_str : binary64 -> string) (n : Z)
            (noise corr m b : binary64),
       cell7 float_str n noise corr m b =
       (t0 ++ str_int n ++ t1 ++ float_str noise ++ t2 ++
        format_f 3 corr ++ t3 ++ format_f 2 m ++ t4 ++
        format_f 2 b ++ t5)%string)
  /\
  (forall corr m b : binary64,
     b64_is_finite corr = true -> b64_is_finite m = true ->
     b64_is_finite b = true ->
     fixed_decimalsb 3 (format_f 3 corr) = true /\
     fixed_decimalsb 2 (format_f 2 m) = true /\
     fixed_decimalsb 2 (format_f 2 b) = true)
  /\
  (forall d : nat, format_f d S754_nan = "nan"%string).
Proof.
  split; [| split].
  - exists (nl ++ "        ### Live summary" ++ nl ++
            "        - **n** = ")%string,
           (nl ++ "        - **σ** = ")%string,
           (nl ++ "        - **Correlation** `corr(x, y)` ≈ **")%string,
           ("**" ++ nl ++
            "        - **Fitted model**: \(\hat{y} = ")%string,
           "\,x + "%string,
           ("\)" ++ nl ++
            "        " ++ nl ++
            "        **Interpretation.**" ++ nl ++
            "        Increasing noise (σ) weakens the linear relationship (reduces |corr|) and" ++ nl ++
            "        makes the fitted line less predictive; increasing n stabilizes estimates." ++ nl ++
            "        ")%string.
    intros float_str n noise corr m b. reflexivity.
  - intros corr m b Hc Hm Hb.
    repeat split; apply format_f_finite; solve [lia | assumption].
  - reflexivity.
Qed.

Lemma summary_format_witness :
  fixed_decimalsb 3 (format_f 3 (b64_lit 98 2)) = true /\
  fixed_decimalsb 2 (format_f 2 (b64_lit 25 1)) = true /\
  fixed_decimalsb 2 (format_f 2 (b64_lit (-1) 2)) = true.
Proof.
  apply (proj1 (proj2 summary_format)); reflexivity.
Defined.

(** C8 as stated fails: a FitResult whose correlation is NaN (what cell 5
    returns for the frame [(0, 0); (1, 0)]) is rendered with the field
    [nan], which has no decimal places. *)
Lemma nan_correlation_has_no_decimals :
  format_f 3 S754_nan = "nan"%string /\
  fixed_decimalsb 3 (format_f 3 S754_nan) = false /\
  cell7 (fun _ => "0.5"%string) 1000 (b64_lit 5 1)
        S754_nan (b64_lit 125 2) (b64_lit 125 2) =
  (nl ++
  "        ### Live summary" ++ nl ++
  "        - **n** = 1000" ++ nl ++
  "        - **σ** = 0.5" ++ nl ++
  "        - **Correlation** `corr(x, y)` ≈ **nan**" ++ nl ++
  "        - **Fitted model**: \(\hat{y} = 1.25\,x + 1.25\)" ++ nl ++
  "        " ++ nl ++
  "        **Interpretation.**" ++ nl ++
  "        Increasing noise (σ) weakens the linear relationship (reduces |corr|) and" ++ nl ++
  "        makes the fitted line less predictive; increasing n stabilizes estimates." ++ nl ++
  "        ")%string.
Proof. repeat split; vm_compute; reflexivity. Qed.

(** ** Zero noise *)

(** *** On binary64: the rows *)

Lemma b64_zero_scale_draw (z : binary64) :
  b64_is_finite z = true ->
  b64_add (b64_of_Z 0) (b64_mul (b64_lit 0 1) z) = S754_zero false.
Proof.
  destruct z as [s | s | | s m e]; try discriminate; intros _;
    destruct s; reflexivity.
Qed.

Lemma b64_add_zero (v : binary64) :
  b64_add v (S754_zero false) = v
  \/ (v = S754_zero true /\ b64_add v (S754_zero false) = S754_zero false).
Proof.
  destruct v as [s | s | | s m e]; try (left; reflexivity).
  destruct s; [right; split; reflexivity | left; reflexivity].
Qed.

Lemma b64_zero_noise_draws (BG : BitGenerator binary64) :
  (forall g, b64_is_finite (fst (standard_normal g)) = true) ->
  forall (k : nat) (g : bitgen),
    fst (draws k (b64_of_Z 0) (b64_lit 0 1) g) = repeat (S754_zero false) k.
Proof.
  intros Hfin k. induction k as [| k IH]; intros g; [reflexivity |].
  cbn [draws repeat]. specialize (Hfin g).
  destruct (standard_normal g) as [z g1]. specialize (IH g1).
  destruct (draws k (b64_of_Z 0) (b64_lit 0 1) g1) as [rest g2].
  cbn [fst] in *. rewrite IH.
  change (fadd (b64_of_Z 0) (fmul (b64_lit 0 1) z))
    with (b64_add (b64_of_Z 0) (b64_mul (b64_lit 0 1) z)).
  now rewrite b64_zero_scale_draw.
Qed.

Lemma map_combine_repeat {A B C} (f : A * B -> C) (l : list A) (v : B) :
  map f (combine l (repeat v (List.length l))) = map (fun u => f (u, v)) l.
Proof.
  induction l as [| u l IH]; [reflexivity |].
  cbn [List.length repeat combine map]. now rewrite IH.
Qed.

(** With noise 0.0 and a sampler that returns finite doubles, every row
    of the frame has y = 2.5 * x + 0.0 in binary64: y is the double
    2.5 * x itself, or +0.0 where 2.5 * x is -0.0. *)
Lemma zero_noise_rows_b64 (BG : BitGenerator binary64) :
  (forall g, b64_is_finite (fst (standard_normal g)) = true) ->
  forall (n : Z) (g : bitgen),
    (0 <= n)%Z ->
    exists df g',
      cell4 n (b64_lit 0 1) g = Ok (df, g') /\
      Z.of_nat (List.length df) = n /\
      Forall (fun row =>
                snd row = b64_mul (b64_lit 25 1) (fst row)
                \/ (b64_mul (b64_lit 25 1) (fst row) = S754_zero true
                    /\ snd row = S754_zero false)) df.
Proof.
  intros Hfin n g Hn.
  exists (combine (x_sample n) (y_sample n (b64_lit 0 1))),
         (rng_after_noise n (b64_lit 0 1)).
  split; [apply cell4_ok; [exact Hn | reflexivity] |].
  split.
  { rewrite length_combine, x_sample_length, y_sample_length, Nat.min_id.
    now apply Z2Nat.id. }
  assert (Ey : y_sample n (b64_lit 0 1) =
               map (fun u => b64_add (b64_mul (b64_lit 25 1) u)
                                     (S754_zero false))
                   (x_sample n)).
  { unfold y_sample, noise_sample.
    change (float_of_int 0) with (b64_of_Z 0).
    rewrite (b64_zero_noise_draws BG Hfin).
    rewrite <- (x_sample_length n).
    unfold scalar_mul.
    rewrite <- (length_map (fmul (float_lit 25 1)) (x_sample n)).
    rewrite map_combine_repeat, map_map. reflexivity. }
  rewrite Ey. generalize (x_sample n). intros l.
  induction l as [| u l IH]; cbn [map combine]; constructor; [| exact IH].
  cbn [fst snd].
  destruct (b64_add_zero (b64_mul (b64_lit 25 1) u)) as [E | [E1 E2]];
    [left | right]; auto.
Qed.

(** * Further properties of the cells *)

(** ** Cell 4: outcomes, the stream, the slider ranges *)

Section GenerationOutcomes.

Context {F : Type} {PF : PyFloat F} {PL : PyFloatLaws F} {BG : BitGenerator F}.

Lemma cell4_negative_scale (n : Z) (noise : F) (g : bitgen) :
  (0 <= n)%Z -> is_negative noise = true ->
  cell4 n noise g = Raise (ValueError "scale < 0").
Proof.
  intros Hn Hs.
  assert (Hlt : (n <? 0)%Z = false) by (apply Z.ltb_ge; exact Hn).
  unfold cell4, bind, seed_rng, normal.
  rewrite unit_scale_ok, Hlt, Hs.
  destruct (draws (Z.to_nat n) (float_of_int 0) (float_of_int 1)
                  (default_rng 123)) as [xs g1].
  reflexivity.
Qed.

Lemma draws_raw (k : nat) (loc scale : F) (g : bitgen) :
  draws k loc scale g =
  (map (fun z => fadd loc (fmul scale z)) (fst (raw_draws k g)),
   snd (raw_draws k g)).
Proof.
  revert g. induction k as [| k IH]; intros g; [reflexivity |].
  cbn [draws raw_draws]. destruct (standard_normal g) as [z g1].
  rewrite (IH g1). destruct (raw_draws k g1) as [rest g2]. reflexivity.
Qed.

Lemma raw_draws_length (k : nat) (g : bitgen) :
  List.length (fst (raw_draws k g)) = k.
Proof.
  revert g. induction k as [| k IH]; intros g; [reflexivity |].
  cbn [raw_draws]. destruct (standard_normal g) as [z g1].
  specialize (IH g1). destruct (raw_draws k g1) as [rest g2].
  cbn [fst List.length] in *. now rewrite IH.
Qed.

(** Drawing [j + k] values is drawing [j] and then [k] more. *)
Lemma raw_draws_add (j k : nat) (g : bitgen) :
  raw_draws (j + k) g =
  (fst (raw_draws j g) ++ fst (raw_draws k (snd (raw_draws j g))),
   snd (raw_draws k (snd (raw_draws j g)))).
Proof.
  revert g. induction j as [| j IH]; intros g.
  - cbn [Nat.add raw_draws fst snd app].
    now destruct (raw_draws k g).
  - cbn [Nat.add raw_draws]. destruct (standard_normal g) as [z g1].
    rewrite (IH g1). destruct (raw_draws j g1) as [rest g2].
    reflexivity.
Qed.

End GenerationOutcomes.

(** X1.  Cell 4 returns a frame exactly when the sample size is not
    negative and the noise passes numpy's scale check; with a size that is
    not negative and a negative noise it is the second call of
    [rng.normal] that fails, with ValueError (scale < 0). *)
Theorem cell4_outcome :
  forall (F : Type) (PF : PyFloat F) (PL : PyFloatLaws F)
         (BG : BitGenerator F) (n : Z) (noise : F) (g : bitgen),
    (is_ok (cell4 n noise g) = true <->
     (0 <= n)%Z /\ is_negative noise = false)
    /\
    ((0 <= n)%Z -> is_negative noise = true ->
     cell4 n noise g = Raise (ValueError "scale < 0")).
Proof.
  intros F PF PL BG n noise g. split; [| apply cell4_negative_scale].
  split.
  - intros Hok. destruct (Z.lt_ge_cases n 0) as [Hn | Hn].
    + rewrite cell4_negative_size in Hok by exact Hn. discriminate.
    + split; [exact Hn |].
      destruct (is_negative noise) eqn:Hs; [| reflexivity].
      rewrite cell4_negative_scale in Hok by assumption. discriminate.
  - intros [Hn Hs]. now rewrite cell4_ok.
Qed.

Lemma cell4_outcome_witness :
  is_ok (@cell4 binary64 _ lcg_b64 3 (b64_lit 5 1) 0%Z) = true /\
  @cell4 binary64 _ lcg_b64 3 (b64_lit (-5) 1) 0%Z =
    Raise (ValueError "scale < 0").
Proof.
  split.
  - apply (proj1 (@cell4_outcome binary64 _ _ lcg_b64 3%Z (b64_lit 5 1) 0%Z)).
    split; [lia | reflexivity].
  - apply (proj2 (@cell4_outcome binary64 _ _ lcg_b64 3%Z
                    (b64_lit (-5) 1) 0%Z)).
    + lia.
    + reflexivity.
Defined.

(** X2.  For valid inputs the frame is cut from one stream: with [zs] the
    first [2 n] values of the sampler seeded with 123, the x column is
    [0 + 1 * z] over the first [n] of them, the y column is
    [2.5 * x + (0 + sigma * z)] over the next [n], and the generator is
    left where those [2 n] draws end. *)
Theorem cell4_stream :
  forall (F : Type) (PF : PyFloat F) (PL : PyFloatLaws F)
         (BG : BitGenerator F) (n : Z) (noise : F) (g : bitgen),
    (0 <= n)%Z -> is_negative noise = false ->
    let k := Z.to_nat n in
    let zs := fst (raw_draws (k + k) (default_rng 123)) in
    exists df,
      cell4 n noise g = Ok (df, snd (raw_draws (k + k) (default_rng 123)))
      /\ col_x df =
         map (fun z => fadd (float_of_int 0) (fmul (float_of_int 1) z))
             (firstn k zs)
      /\ col_y df =
         map (fun p => fadd (fmul (float_lit 25 1) (fst p))
                            (fadd (float_of_int 0) (fmul noise (snd p))))
             (combine (col_x df) (skipn k zs)).
Proof.
  intros F PF PL BG n noise g Hn Hs k zs.
  exists (combine (x_sample n) (y_sample n noise)).
  assert (Lxy : List.length (x_sample n) = List.length (y_sample n noise))
    by now rewrite x_sample_length, y_sample_length.
  unfold col_x, col_y. rewrite combine_fst, combine_snd by exact Lxy.
  assert (Ez : zs = fst (raw_draws k (default_rng 123)) ++
                    fst (raw_draws k (snd (raw_draws k (default_rng 123))))).
  { unfold zs. now rewrite raw_draws_add. }
  assert (Lk : List.length (fst (raw_draws k (default_rng 123))) = k)
    by apply raw_draws_length.
  assert (Ef : firstn k zs = fst (raw_draws k (default_rng 123))).
  { rewrite Ez, <- Lk at 1. rewrite firstn_app, Nat.sub_diag, firstn_all.
    cbn [firstn]. apply app_nil_r. }
  assert (Es : skipn k zs =
               fst (raw_draws k (snd (raw_draws k (default_rng 123))))).
  { rewrite Ez, <- Lk at 1. rewrite skipn_app, Nat.sub_diag, skipn_all.
    reflexivity. }
  assert (Ex : x_sample n =
               map (fun z => fadd (float_of_int 0) (fmul (float_of_int 1) z))
                   (fst (raw_draws k (default_rng 123)))).
  { unfold x_sample. now rewrite draws_raw. }
  assert (Eg : rng_after_x n = snd (raw_draws k (default_rng 123))).
  { unfold rng_after_x. now rewrite draws_raw. }
  split; [| split].
  - rewrite cell4_ok by assumption. f_equal. f_equal.
    unfold rng_after_noise. rewrite draws_raw, Eg.
    fold k. now rewrite raw_draws_add.
  - now rewrite Ef.
  - rewrite Es. unfold y_sample, noise_sample.
    rewrite draws_raw, Eg. fold k. cbn [fst].
    unfold scalar_mul.
    generalize (x_sample n)
               (fst (raw_draws k (snd (raw_draws k (default_rng 123))))).
    intros xs. induction xs as [| u xs IH]; intros [| z es];
      cbn [map combine]; try reflexivity.
    cbn [fst snd]. now rewrite IH.
Qed.

Lemma cell4_stream_witness :
  exists df,
    @cell4 binary64 _ lcg_b64 3 (b64_lit 5 1) 0%Z =
      Ok (df, snd (@raw_draws binary64 lcg_b64 (3 + 3) 123%Z))
    /\ col_x df =
       map (fun z => b64_add (b64_of_Z 0) (b64_mul (b64_of_Z 1) z))
           (firstn 3 (fst (@raw_draws binary64 lcg_b64 (3 + 3) 123%Z)))
    /\ col_y df =
       map (fun p => b64_add (b64_mul (b64_lit 25 1) (fst p))
                             (b64_add (b64_of_Z 0)
                                      (b64_mul (b64_lit 5 1) (snd p))))
           (combine (col_x df)
              (skipn 3 (fst (@raw_draws binary64 lcg_b64 (3 + 3) 123%Z)))).
Proof.
  assert (Hn : (0 <= 3)%Z) by lia.
  exact (@cell4_stream binary64 _ _ lcg_b64 3%Z (b64_lit 5 1) 0%Z
           Hn eq_refl).
Defined.

(** X3.  The values the two sliders of cell 3 accept are valid inputs of
    cell 4, but for the noise -0.0: for a size within [100, 5000] and a
    noise that the range [0.0, 2.0] admits and that is not -0.0, cell 4
    returns a frame, and the frame has as many rows as the slider says.
    (The range admits -0.0, which numpy refuses as a scale.) *)
Theorem slider_values_generate :
  forall (BG : BitGenerator binary64) (n : Z) (noise : binary64) (g : bitgen),
    int_in_range (fst (@cell3 binary64 _)) n = true ->
    b64_in_range (snd (@cell3 binary64 _)) noise = true ->
    noise <> S754_zero true ->
    exists df g',
      cell4 n noise g = Ok (df, g') /\
      Z.of_nat (List.length df) = n /\
      (100 <= List.length df <= 5000)%nat.
Proof.
  intros BG n noise g Hn Hs Hz.
  unfold int_in_range in Hn. cbn [cell3 fst start stop] in Hn.
  apply andb_prop in Hn. destruct Hn as [H1 H2].
  apply Z.leb_le in H1. apply Z.leb_le in H2.
  unfold b64_in_range in Hs. apply andb_prop in Hs. destruct Hs as [Hs _].
  change (start (snd (@cell3 binary64 _))) with (S754_zero false) in Hs.
  assert (Hneg : is_negative noise = false).
  { cbn [is_negative binary64_float].
    destruct noise as [s | s | | s m e]; try destruct s;
      try reflexivity; try discriminate; congruence. }
  exists (combine (x_sample n) (y_sample n noise)),
         (rng_after_noise n noise).
  split; [apply cell4_ok; [lia | exact Hneg] |].
  rewrite length_combine, x_sample_length, y_sample_length, Nat.min_id.
  split; [apply Z2Nat.id |]; lia.
Qed.

Lemma slider_values_generate_witness :
  exists df g',
    @cell4 binary64 _ lcg_b64 1000 (b64_lit 5 1) 0%Z = Ok (df, g') /\
    Z.of_nat (List.length df) = 1000%Z /\
    (100 <= List.length df <= 5000)%nat.
Proof.
  apply (slider_values_generate lcg_b64 1000%Z (b64_lit 5 1) 0%Z);
    [reflexivity | reflexivity | discriminate].
Defined.

(** ** Cell 4 with zero noise *)

Lemma b64_eqb_refl (v : binary64) : v <> S754_nan -> SFeqb v v = true.
Proof.
  destruct v as [s | s | | s m e]; intros H; try congruence.
  - reflexivity.
  - destruct s; reflexivity.
  - unfold SFeqb, SFcompare.
    destruct s; rewrite Z.compare_refl, Pos.compare_cont_refl; reflexivity.
Qed.

Lemma lcg_sample_range (g : Z) : (-4 <= lcg_sample g <= 4)%Z.
Proof.
  unfold lcg_sample. pose proof (Z.mod_pos_bound (g / 65536) 9). lia.
Qed.

Lemma lcg_b64_finite (g : Z) :
  b64_is_finite (fst (@standard_normal binary64 lcg_b64 g)) = true.
Proof.
  cbn [standard_normal lcg_b64 lcg_generator fst].
  pose proof (lcg_sample_range (lcg_next g)) as H.
  assert (E : lcg_sample (lcg_next g) = (-4)%Z \/
              lcg_sample (lcg_next g) = (-3)%Z \/
              lcg_sample (lcg_next g) = (-2)%Z \/
              lcg_sample (lcg_next g) = (-1)%Z \/
              lcg_sample (lcg_next g) = 0%Z \/
              lcg_sample (lcg_next g) = 1%Z \/
              lcg_sample (lcg_next g) = 2%Z \/
              lcg_sample (lcg_next g) = 3%Z \/
              lcg_sample (lcg_next g) = 4%Z) by lia.
  repeat (destruct E as [E | E]; [rewrite E; reflexivity |]).
  rewrite E. reflexivity.
Qed.

(** X10.  With noise 0.0 and a sampler that returns finite doubles, the
    rows of the frame satisfy y == 2.5 * x as doubles (wherever 2.5 * x is
    not NaN): adding the noise [0 + 0.0 * z] changes no value. *)
Theorem zero_noise_rows_equal :
  forall (BG : BitGenerator binary64),
    (forall g, b64_is_finite (fst (standard_normal g)) = true) ->
    forall (n : Z) (g : bitgen),
      (0 <= n)%Z ->
      exists df g',
        cell4 n (b64_lit 0 1) g = Ok (df, g') /\
        Z.of_nat (List.length df) = n /\
        Forall (fun row =>
                  b64_mul (b64_lit 25 1) (fst row) <> S754_nan ->
                  SFeqb (snd row) (b64_mul (b64_lit 25 1) (fst row)) = true)
               df.
Proof.
  intros BG Hfin n g Hn.
  destruct (zero_noise_rows_b64 BG Hfin n g Hn) as (df & g' & E & L & Hrows).
  exists df, g'. split; [exact E |]. split; [exact L |].
  eapply Forall_impl; [| exact Hrows].
  intros row Hr. cbv beta in Hr |- *. intros Hnan.
  destruct Hr as [H | [H1 H2]].
  - replace (snd row) with (b64_mul (b64_lit 25 1) (fst row)).
    now apply b64_eqb_refl.
  - replace (snd row) with (S754_zero false).
    replace (b64_mul (b64_lit 25 1) (fst row)) with (S754_zero true).
    reflexivity.
Qed.

Lemma zero_noise_rows_equal_witness :
  exists df g',
    @cell4 binary64 _ lcg_b64 3 (b64_lit 0 1) 0%Z = Ok (df, g') /\
    Z.of_nat (List.length df) = 3%Z /\
    Forall (fun row =>
              b64_mul (b64_lit 25 1) (fst row) <> S754_nan ->
              SFeqb (snd row) (b64_mul (b64_lit 25 1) (fst row)) = true)
           df.
Proof.
  apply (zero_noise_rows_equal lcg_b64 lcg_b64_finite 3%Z 0%Z). lia.
Defined.

(** ** Cell 6 *)

(** *** The order of binary64 values *)

Ltac order_cases :=
  repeat match goal with
    | H : context [Z.compare ?a ?b] |- _ =>
        destruct (Z.compare_spec a b); cbn in H; try discriminate H
    | H : context [Pos.compare_cont Eq ?a ?b] |- _ =>
        change (Pos.compare_cont Eq a b) with (Pos.compare a b) in H;
        destruct (Pos.compare_spec a b); cbn in H; try discriminate H
    | |- context [Z.compare ?a ?b] =>
        destruct (Z.compare_spec a b); cbn
    | |- context [Pos.compare_cont Eq ?a ?b] =>
        change (Pos.compare_cont Eq a b) with (Pos.compare a b);
        destruct (Pos.compare_spec a b); cbn
    end;
  try reflexivity; try discriminate; try lia.

Lemma SFleb_trans (a b c : binary64) :
  SFleb a b = true -> SFleb b c = true -> SFleb a c = true.
Proof.
  unfold SFleb.
  destruct a as [sa | sa | | sa ma ea], b as [sb | sb | | sb mb eb],
           c as [sc | sc | | sc mc ec];
    cbn; intros H1 H2; try discriminate; try reflexivity;
    repeat match goal with s : bool |- _ => destruct s end;
    cbn in *; try discriminate; try reflexivity; order_cases.
Qed.

Lemma SFleb_total (a b : binary64) :
  b64_isnan a = false -> b64_isnan b = false ->
  SFleb a b = false -> SFleb b a = true.
Proof.
  unfold SFleb.
  destruct a as [sa | sa | | sa ma ea], b as [sb | sb | | sb mb eb];
    cbn; intros Ha Hb H; try discriminate; try reflexivity;
    repeat match goal with s : bool |- _ => destruct s end;
    cbn in *; try discriminate; try reflexivity; order_cases.
Qed.

Lemma SFleb_refl (v : binary64) : b64_isnan v = false -> SFleb v v = true.
Proof.
  intros H. destruct (SFleb v v) eqn:E; [reflexivity |].
  pose proof (SFleb_total v v H H E). congruence.
Qed.

(** *** The reductions from left to right satisfy the laws *)

Lemma fold_minimum (l : list binary64) (v : binary64) :
  b64_isnan v = false -> existsb b64_isnan l = false ->
  In (fold_left np_minimum l v) (v :: l) /\
  forall u, In u (v :: l) -> SFleb (fold_left np_minimum l v) u = true.
Proof.
  revert v. induction l as [| w l IH]; intros v Hv Hl.
  - cbn. split; [now left |]. intros u [<- | []]. now apply SFleb_refl.
  - cbn in Hl. apply orb_false_elim in Hl as [Hw Hl].
    cbn [fold_left]. unfold np_minimum at 2 4. rewrite Hv, orb_false_r.
    destruct (SFleb v w) eqn:E.
    + destruct (IH v Hv Hl) as [I1 I2]. split.
      * destruct I1 as [<- | I1]; [now left | right; now right].
      * intros u [<- | [<- | Hu]].
        -- apply I2. now left.
        -- apply SFleb_trans with v; [apply I2; now left | exact E].
        -- apply I2. now right.
    + destruct (IH w Hw Hl) as [I1 I2]. split.
      * right. exact I1.
      * intros u [<- | Hu].
        -- apply SFleb_trans with w; [apply I2; now left |].
           now apply SFleb_total.
        -- now apply I2.
Qed.

Lemma fold_maximum (l : list binary64) (v : binary64) :
  b64_isnan v = false -> existsb b64_isnan l = false ->
  In (fold_left np_maximum l v) (v :: l) /\
  forall u, In u (v :: l) -> SFleb u (fold_left np_maximum l v) = true.
Proof.
  revert v. induction l as [| w l IH]; intros v Hv Hl.
  - cbn. split; [now left |]. intros u [<- | []]. now apply SFleb_refl.
  - cbn in Hl. apply orb_false_elim in Hl as [Hw Hl].
    cbn [fold_left]. unfold np_maximum at 2 4. rewrite Hv, orb_false_r.
    destruct (SFleb w v) eqn:E.
    + destruct (IH v Hv Hl) as [I1 I2]. split.
      * destruct I1 as [<- | I1]; [now left | right; now right].
      * intros u [<- | [<- | Hu]].
        -- apply I2. now left.
        -- apply SFleb_trans with v; [exact E | apply I2; now left].
        -- apply I2. now right.
    + destruct (IH w Hw Hl) as [I1 I2]. split.
      * right. exact I1.
      * intros u [<- | Hu].
        -- apply SFleb_trans with w; [| apply I2; now left].
           now apply SFleb_total.
        -- now apply I2.
Qed.

#[export] Instance seq_extrema_laws : ExtremaLaws seq_extrema.
Proof.
  constructor; cbn [min_reduce max_reduce seq_extrema].
  - intros [| v l] Hne Hl; [congruence |].
    cbn in Hl. apply orb_false_elim in Hl as [Hv Hl].
    apply (fold_minimum l v Hv Hl).
  - intros [| v l] u Hl Hu; [destruct Hu |].
    cbn in Hl. apply orb_false_elim in Hl as [Hv Hl].
    now apply (fold_minimum l v Hv Hl).
  - intros [| v l] Hne Hl; [congruence |].
    cbn in Hl. apply orb_false_elim in Hl as [Hv Hl].
    apply (fold_maximum l v Hv Hl).
  - intros [| v l] u Hl Hu; [destruct Hu |].
    cbn in Hl. apply orb_false_elim in Hl as [Hv Hl].
    now apply (fold_maximum l v Hv Hl).
Qed.

(** *** The ends of the column *)

Lemma no_nan_in (l : list binary64) (v : binary64) :
  existsb b64_isnan l = false -> In v l -> b64_isnan v = false.
Proof.
  intros H Hv. destruct (b64_isnan v) eqn:E; [| reflexivity].
  rewrite <- H. symmetry. apply existsb_exists. now exists v.
Qed.

Lemma fill_nan_no_nan (fill : binary64) (l : list binary64) :
  b64_isnan fill = false -> existsb b64_isnan (fill_nan fill l) = false.
Proof.
  intros Hf. unfold fill_nan. induction l as [| v l IH]; [reflexivity |].
  cbn [map existsb]. rewrite IH, orb_false_r.
  destruct (b64_isnan v) eqn:E; assumption.
Qed.

Lemma fill_nan_valid (fill : binary64) (l : list binary64) (u : binary64) :
  In u l -> b64_isnan u = false -> In u (fill_nan fill l).
Proof.
  intros Hu Hn. unfold fill_nan. apply in_map_iff. exists u.
  now rewrite Hn.
Qed.

Lemma fill_nan_in (fill : binary64) (l : list binary64) (v : binary64) :
  In v (fill_nan fill l) -> In v l \/ v = fill.
Proof.
  unfold fill_nan. intros H. apply in_map_iff in H as (u & E & Hu).
  destruct (b64_isnan u); [now right | left; now subst].
Qed.

Lemma some_valid (l : list binary64) :
  forallb b64_isnan l = false ->
  exists w, In w l /\ b64_isnan w = false.
Proof.
  induction l as [| v l IH]; cbn; [discriminate |].
  destruct (b64_isnan v) eqn:E; cbn.
  - intros H. destruct (IH H) as (w & Hw & Hn). exists w. now split; [right |].
  - intros _. exists v. now split; [left |].
Qed.

Lemma above_plus_infinity (w : binary64) :
  SFleb (S754_infinity false) w = true -> w = S754_infinity false.
Proof. destruct w as [s | [] | | s m e]; cbn; congruence. Qed.

Lemma below_minus_infinity (w : binary64) :
  SFleb w (S754_infinity true) = true -> w = S754_infinity true.
Proof.
  destruct w as [s | [] | | [] m e]; cbn; congruence.
Qed.

Section PlotFacts.

Context {EX : Extrema} {EL : ExtremaLaws EX}.

(** Of a column with a value that is not NaN, [min] returns such a value
    of the column, below all of them. *)
Lemma series_min_spec (l : list binary64) :
  forallb b64_isnan l = false ->
  In (series_min l) l /\ b64_isnan (series_min l) = false /\
  forall u, In u l -> b64_isnan u = false -> SFleb (series_min l) u = true.
Proof.
  intros H. unfold series_min. rewrite H.
  destruct (some_valid l H) as (w & Hw & Hwn).
  set (l' := fill_nan (S754_infinity false) l).
  assert (Hl' : existsb b64_isnan l' = false)
    by now apply fill_nan_no_nan.
  assert (Hw' : In w l') by now apply fill_nan_valid.
  assert (Hne : l' <> []) by (intros E; rewrite E in Hw'; destruct Hw').
  pose proof (min_reduce_in l' Hne Hl') as Hin.
  split; [| split].
  - destruct (fill_nan_in _ _ _ Hin) as [I | E]; [exact I |].
    pose proof (min_reduce_le l' w Hl' Hw') as Hle.
    rewrite E in Hle |- *. apply above_plus_infinity in Hle.
    now rewrite <- Hle.
  - now apply (no_nan_in l').
  - intros u Hu Hun. apply min_reduce_le; [exact Hl' |].
    now apply fill_nan_valid.
Qed.

Lemma series_max_spec (l : list binary64) :
  forallb b64_isnan l = false ->
  In (series_max l) l /\ b64_isnan (series_max l) = false /\
  forall u, In u l -> b64_isnan u = false -> SFleb u (series_max l) = true.
Proof.
  intros H. unfold series_max. rewrite H.
  destruct (some_valid l H) as (w & Hw & Hwn).
  set (l' := fill_nan (S754_infinity true) l).
  assert (Hl' : existsb b64_isnan l' = false)
    by now apply fill_nan_no_nan.
  assert (Hw' : In w l') by now apply fill_nan_valid.
  assert (Hne : l' <> []) by (intros E; rewrite E in Hw'; destruct Hw').
  pose proof (max_reduce_in l' Hne Hl') as Hin.
  split; [| split].
  - destruct (fill_nan_in _ _ _ Hin) as [I | E]; [exact I |].
    pose proof (max_reduce_ge l' w Hl' Hw') as Hle.
    rewrite E in Hle |- *. apply below_minus_infinity in Hle.
    now rewrite <- Hle.
  - now apply (no_nan_in l').
  - intros u Hu Hun. apply max_reduce_ge; [exact Hl' |].
    now apply fill_nan_valid.
Qed.

End PlotFacts.

(** *** The samples of [np.linspace] *)

Lemma np_linspace_length (start stop : binary64) (num : nat) :
  List.length (np_linspace start stop num) = num.
Proof.
  destruct num as [| [| k]]; [reflexivity | reflexivity |].
  unfold np_linspace. cbv zeta.
  rewrite length_app, length_map, length_seq. cbn [List.length]. lia.
Qed.

Lemma np_linspace_last (start stop : binary64) (k : nat) :
  nth (S k) (np_linspace start stop (S (S k))) S754_nan = stop.
Proof.
  unfold np_linspace. cbv zeta.
  rewrite app_nth2; rewrite length_map, length_seq; [| lia].
  now rewrite Nat.sub_diag.
Qed.

Lemma np_linspace_first (start stop : binary64) (k : nat) :
  nth 0 (np_linspace start stop (S (S k))) S754_nan =
  let d := b64_of_nat (S k) in
  let delta := b64_sub stop start in
  let step := b64_div delta d in
  if SFeqb step (S754_zero false)
  then b64_add (b64_mul (b64_div (b64_of_nat 0) d) delta) start
  else b64_add (b64_mul (b64_of_nat 0) step) start.
Proof.
  unfold np_linspace. cbv zeta. cbn [seq map app nth].
  destruct (SFeqb _ _); reflexivity.
Qed.

(** Zero times a finite double, added to a finite double, is that
    double, up to the sign of a zero. *)
Lemma zero_step_sample (sz : bool) (t v : binary64) :
  b64_is_finite t = true -> b64_is_finite v = true ->
  SFeqb (b64_add (b64_mul (S754_zero sz) t) v) v = true /\
  (SFeqb v (S754_zero false) = false ->
   b64_add (b64_mul (S754_zero sz) t) v = v).
Proof.
  intros Ht Hv.
  assert (E : exists s, b64_mul (S754_zero sz) t = S754_zero s).
  { destruct t as [st | st | | st mt et]; try discriminate;
      eexists; reflexivity. }
  destruct E as [s ->].
  destruct v as [sv | sv | | sv mv ev]; try discriminate.
  - split; [destruct s, sv; reflexivity | discriminate].
  - split; [| reflexivity].
    change (b64_add (S754_zero s) (S754_finite sv mv ev))
      with (S754_finite sv mv ev).
    apply b64_eqb_refl. discriminate.
Qed.

Lemma finite_difference (a c : binary64) :
  b64_is_finite (b64_sub a c) = true ->
  b64_is_finite a = true /\ b64_is_finite c = true.
Proof.
  destruct a as [sa | sa | | sa ma ea], c as [sc | sc | | sc mc ec];
    try (split; reflexivity);
    try destruct sa; try destruct sc; cbn; intros H; discriminate.
Qed.

(** X13.  The fitted line is drawn over the range of the data.  For a
    frame whose x column has a value that is not NaN, and whatever slope
    and intercept: the ends [lo] and [hi] that cell 6 takes are values of
    the x column, with every value of the column that is not NaN between
    them; the line has 200 points, each y computed from its x as
    [m * x + b]; the last x is [hi], bit for bit; and when the step
    [(hi - lo) / 199] is finite in binary64, the first x is [lo] (the
    same double, up to the sign of a zero). *)
Theorem cell6_line_spans_data :
  forall (EX : Extrema) (EL : ExtremaLaws EX)
         (df : DataFrame binary64) (m b : binary64),
    forallb b64_isnan (col_x df) = false ->
    let lo := series_min (col_x df) in
    let hi := series_max (col_x df) in
    let xs := line_x (cell6 df m b) in
    In lo (col_x df) /\ In hi (col_x df) /\
    (forall u, In u (col_x df) -> b64_isnan u = false ->
               SFleb lo u = true /\ SFleb u hi = true) /\
    List.length xs = 200 /\
    line_y (cell6 df m b) = map (fun v => b64_add (b64_mul m v) b) xs /\
    nth 199 xs S754_nan = hi /\
    (b64_is_finite (b64_div (b64_sub hi lo) (b64_of_nat 199)) = true ->
     SFeqb (nth 0 xs S754_nan) lo = true /\
     (SFeqb lo (S754_zero false) = false -> nth 0 xs S754_nan = lo)).
Proof.
  intros EX EL df m b H lo hi xs.
  destruct (series_min_spec (col_x df) H) as (Lin & _ & Lle).
  destruct (series_max_spec (col_x df) H) as (Hin & _ & Hge).
  split; [exact Lin |]. split; [exact Hin |].
  split; [intros u Hu Hn; split; [now apply Lle | now apply Hge] |].
  subst xs. cbn [cell6 line_x line_y]. fold lo hi.
  split; [apply np_linspace_length |]. split; [reflexivity |].
  split; [apply (np_linspace_last lo hi 198) |].
  intros Hstep.
  pose proof (np_linspace_first lo hi 198) as F. cbv zeta in F.
  change (S (S 198)) with 200 in F. change (S 198) with 199 in F.
  rewrite F. clear F.
  assert (Hd : b64_is_finite (b64_sub hi lo) = true).
  { destruct (b64_sub hi lo) as [s | s | | s md ed];
      try reflexivity; vm_compute in Hstep; discriminate. }
  destruct (finite_difference hi lo Hd) as [_ Hlo].
  change (b64_div (b64_of_nat 0) (b64_of_nat 199)) with (S754_zero false).
  change (b64_of_nat 0) with (S754_zero false).
  destruct (SFeqb (b64_div (b64_sub hi lo) (b64_of_nat 199))
                  (S754_zero false));
    now apply zero_step_sample.
Qed.

Lemma cell6_line_spans_data_witness :
  let df := frame_line in
  let lo := @series_min seq_extrema (col_x df) in
  let hi := @series_max seq_extrema (col_x df) in
  let xs := line_x (@cell6 seq_extrema df (b64_of_Z 2) (b64_of_Z 1)) in
  In lo (col_x df) /\ In hi (col_x df) /\
  (forall u, In u (col_x df) -> b64_isnan u = false ->
             SFleb lo u = true /\ SFleb u hi = true) /\
  List.length xs = 200 /\
  line_y (@cell6 seq_extrema df (b64_of_Z 2) (b64_of_Z 1)) =
    map (fun v => b64_add (b64_mul (b64_of_Z 2) v) (b64_of_Z 1)) xs /\
  nth 199 xs S754_nan = hi /\
  (b64_is_finite (b64_div (b64_sub hi lo) (b64_of_nat 199)) = true ->
   SFeqb (nth 0 xs S754_nan) lo = true /\
   (SFeqb lo (S754_zero false) = false -> nth 0 xs S754_nan = lo)).
Proof.
  exact (@cell6_line_spans_data seq_extrema seq_extrema_laws frame_line
           (b64_of_Z 2) (b64_of_Z 1) eq_refl).
Defined.

(** When the range overflows the first sample is NaN: between the
    largest double and its opposite the step is infinite, and zero times
    the step is NaN. *)
Example cell6_range_overflow :
  let big := S754_finite false 9007199254740991 971 in
  let df := [(S754_finite true 9007199254740991 971, b64_of_Z 0);
             (big, b64_of_Z 0)] in
  b64_sub (@series_max seq_extrema (col_x df))
          (@series_min seq_extrema (col_x df)) = S754_infinity false /\
  nth 0 (line_x (@cell6 seq_extrema df (b64_of_Z 2) (b64_of_Z 1))) big
    = S754_nan.
Proof. split; vm_compute; reflexivity. Qed.

(** ** Cell 7: the printed numbers read back *)

Section ReadBack.

Open Scope string_scope.
Open Scope Z_scope.

Lemma digit_val_digit (z : Z) : 0 <= z < 10 -> digit_val (digit z) = z.
Proof.
  intros H. unfold digit_val, digit.
  rewrite nat_ascii_embedding by lia. lia.
Qed.

Lemma digits_value_acc_app (acc : Z) (s t : string) :
  digits_value_acc acc (s ++ t) =
  digits_value_acc (digits_value_acc acc s) t.
Proof.
  revert acc. induction s as [| c s IH]; intros acc;
    cbn [append digits_value_acc]; [reflexivity | apply IH].
Qed.

Lemma digits_value_acc_last (acc : Z) (s : string) (c : ascii) :
  digits_value_acc acc (s ++ String c "") =
  10 * digits_value_acc acc s + digit_val c.
Proof. rewrite digits_value_acc_app. reflexivity. Qed.

Lemma log2_tenth (z : Z) : 10 <= z -> Z.log2 (z / 10) <= Z.log2 z - 1.
Proof.
  intros H.
  assert (Hq : 0 < z / 10) by (apply Z.div_str_pos; lia).
  assert (H2 : 2 * (z / 10) <= z).
  { pose proof (Z.div_mod z 10 ltac:(lia)).
    pose proof (Z.mod_pos_bound z 10 ltac:(lia)). lia. }
  apply Z.log2_le_mono in H2.
  rewrite Z.log2_double in H2 by exact Hq. lia.
Qed.

(** With fuel for its binary length, [int_digits] writes all of [z]. *)
Lemma int_digits_value (fuel : nat) (z : Z) :
  0 <= z -> Z.log2 z <= Z.of_nat fuel ->
  digits_value (int_digits fuel z) = z.
Proof.
  revert z. induction fuel as [| fuel IH]; intros z Hz Hl;
    cbn [int_digits].
  - assert (Hz2 : z < 2).
    { destruct (Z.lt_ge_cases z 2) as [| H2]; [assumption |].
      assert (0 < Z.log2 z) by (apply Z.log2_pos; lia). lia. }
    unfold digits_value. cbn [digits_value_acc].
    rewrite Z.mod_small by lia. rewrite digit_val_digit by lia. lia.
  - destruct (z <? 10) eqn:E.
    + apply Z.ltb_lt in E. unfold digits_value. cbn [digits_value_acc].
      rewrite digit_val_digit by lia. lia.
    + apply Z.ltb_ge in E. unfold digits_value.
      rewrite digits_value_acc_last. fold (digits_value (int_digits fuel (z / 10))).
      rewrite IH.
      * rewrite digit_val_digit by (apply Z.mod_pos_bound; lia).
        pose proof (Z.div_mod z 10). lia.
      * apply Z.div_pos; lia.
      * pose proof (log2_tenth z E). lia.
Qed.

Lemma digits_of_value (z : Z) : 0 <= z -> digits_value (digits_of z) = z.
Proof.
  intros Hz. unfold digits_of. apply int_digits_value; [exact Hz |].
  rewrite Z2Nat.id by apply Z.log2_nonneg. lia.
Qed.

Lemma frac_digits_value (d : nat) (r acc : Z) :
  digits_value_acc acc (frac_digits d r) =
  acc * 10 ^ Z.of_nat d + r mod 10 ^ Z.of_nat d.
Proof.
  revert r. induction d as [| d IH]; intros r.
  - cbn [frac_digits digits_value_acc]. change (10 ^ Z.of_nat 0) with 1.
    rewrite Z.mod_1_r. lia.
  - cbn [frac_digits]. rewrite digits_value_acc_last, IH.
    rewrite digit_val_digit by (apply Z.mod_pos_bound; lia).
    rewrite Nat2Z.inj_succ, Z.pow_succ_r by lia.
    assert (P : 0 < 10 ^ Z.of_nat d) by (apply Z.pow_pos_nonneg; lia).
    rewrite (Z.rem_mul_r r 10 (10 ^ Z.of_nat d)) by lia.
    ring.
Qed.

Lemma digits_of_head (z : Z) :
  exists c s, digits_of z = String c s /\ is_digit c = true.
Proof.
  unfold digits_of.
  destruct (int_digits_nonempty (Z.to_nat (Z.log2 z)) z) as (c & s & E).
  exists c, s. split; [exact E |].
  pose proof (int_digits_all_digits (Z.to_nat (Z.log2 z)) z) as H.
  rewrite E in H. cbn [all_digits] in H. now apply andb_prop in H.
Qed.

(** Fixed notation reads back as the sign, the integer and the number of
    decimals it was written from. *)
Lemma parse_fixed_notation (neg : bool) (N : Z) (d : nat) :
  0 <= N -> (0 < d)%nat ->
  parse_fixed (fixed_notation neg N d) = Some (neg, N, d).
Proof.
  intros HN Hd. unfold fixed_notation.
  destruct d as [| d]; [lia |].
  set (q := N / 10 ^ Z.of_nat (S d)).
  set (fp := frac_digits (S d) (N mod 10 ^ Z.of_nat (S d))).
  assert (P : 0 < 10 ^ Z.of_nat (S d)) by (apply Z.pow_pos_nonneg; lia).
  assert (Hq : 0 <= q) by (apply Z.div_pos; lia).
  assert (Hip : all_digits (digits_of q) = true)
    by apply int_digits_all_digits.
  assert (Hfp : all_digits fp = true) by apply frac_digits_all_digits.
  assert (Hlen : String.length fp = S d) by apply frac_digits_length.
  destruct (digits_of_head q) as (c & s & Es & Hc).
  destruct (digit_not_punctuation c Hc) as [_ Hminus].
  assert (Hu : unsigned_part ((if neg then "-" else "") ++
                              digits_of q ++ "." ++ fp)
               = digits_of q ++ String "." fp).
  { destruct neg; cbn [append]; [reflexivity |].
    rewrite Es. cbn [append unsigned_part]. now rewrite Hminus. }
  assert (Hneg : match (if neg then "-" else "") ++
                       digits_of q ++ "." ++ fp with
                 | String c0 _ => Ascii.eqb c0 "-"
                 | EmptyString => false
                 end = neg).
  { destruct neg; cbn [append]; [reflexivity |].
    rewrite Es. cbn [append]. exact Hminus. }
  unfold parse_fixed. rewrite Hu, Hneg, split_at_dot_digits by exact Hip.
  rewrite Hip, Hfp, Hlen.
  assert (Hne : negb (String.eqb (digits_of q) "") = true)
    by (rewrite Es; reflexivity).
  rewrite Hne. cbn [andb].
  unfold digits_value. rewrite digits_value_acc_app.
  fold (digits_value (digits_of q)). rewrite digits_of_value by exact Hq.
  unfold fp. rewrite frac_digits_value, Z.mod_mod by lia.
  unfold q. pose proof (Z.div_mod N (10 ^ Z.of_nat (S d))).
  do 3 f_equal. lia.
Qed.

Lemma scaled_round_nonneg (m : positive) (e : Z) (d : nat) :
  0 <= scaled_round m e d.
Proof.
  unfold scaled_round.
  assert (P : 0 < 10 ^ Z.of_nat d) by (apply Z.pow_pos_nonneg; lia).
  destruct (0 <=? e) eqn:E.
  - apply Z.leb_le in E.
    assert (0 <= 2 ^ e) by (apply Z.pow_nonneg; lia). nia.
  - apply Z.leb_gt in E.
    assert (D : 0 < 2 ^ (- e)) by (apply Z.pow_pos_nonneg; lia).
    assert (Q : 0 <= Z.pos m * 10 ^ Z.of_nat d / 2 ^ (- e))
      by (apply Z.div_pos; nia).
    destruct (2 * _ ?= 2 ^ (- e)); [destruct (Z.even _) | |]; lia.
Qed.

(** Rounding keeps within half a unit, and is exact when no bit lies
    below the units. *)
Lemma scaled_round_accuracy (m : positive) (e : Z) (d : nat) :
  (0 <= e -> scaled_round m e d = Z.pos m * 10 ^ Z.of_nat d * 2 ^ e) /\
  (e < 0 ->
   2 * Z.abs (scaled_round m e d * 2 ^ (- e) - Z.pos m * 10 ^ Z.of_nat d)
   <= 2 ^ (- e)).
Proof.
  unfold scaled_round. split; intros He.
  - apply Z.leb_le in He. now rewrite He.
  - assert (E : (0 <=? e) = false) by now apply Z.leb_gt.
    rewrite E.
    assert (D : 0 < 2 ^ (- e)) by (apply Z.pow_pos_nonneg; lia).
    set (num := Z.pos m * 10 ^ Z.of_nat d) in *.
    set (den := 2 ^ (- e)) in *.
    pose proof (Z.div_mod num den ltac:(lia)) as DM.
    pose proof (Z.mod_pos_bound num den D) as MB.
    clearbody num den.
    set (q := num / den) in *. set (r := num mod den) in *.
    clearbody q r. subst num.
    assert (Up : (q + 1) * den - (den * q + r) = den - r) by ring.
    assert (Down : q * den - (den * q + r) = - r) by ring.
    destruct (2 * r ?= den) eqn:C.
    + apply Z.compare_eq in C.
      destruct (Z.even q); [rewrite Down | rewrite Up];
        clear Up Down; lia.
    + apply -> Z.compare_lt_iff in C. rewrite Down. clear Up Down. lia.
    + apply -> Z.compare_gt_iff in C. rewrite Up. clear Up Down. lia.
Qed.

End ReadBack.

(** X15.  What [.3f] and [.2f] print for a finite double reads back as its
    sign, its number of decimals [d >= 1] and an integer [N] of units
    [10^-d] that is the double's exact value [m * 2^e] rounded: exact when
    [e >= 0], and otherwise within half a unit, that is
    [2 |N 2^-e - m 10^d| <= 2^-e]. *)
Theorem format_f_reads_back :
  forall (d : nat) (s : bool) (m : positive) (e : Z),
    (0 < d)%nat ->
    exists N : Z,
      parse_fixed (format_f d (S754_finite s m e)) = Some (s, N, d) /\
      (0 <= N)%Z /\
      ((0 <= e)%Z -> N = (Z.pos m * 10 ^ Z.of_nat d * 2 ^ e)%Z) /\
      ((e < 0)%Z ->
       (2 * Z.abs (N * 2 ^ (- e) - Z.pos m * 10 ^ Z.of_nat d)
        <= 2 ^ (- e))%Z).
Proof.
  intros d s m e Hd. exists (scaled_round m e d).
  pose proof (scaled_round_nonneg m e d) as HN.
  destruct (scaled_round_accuracy m e d) as [A1 A2].
  split; [| split; [exact HN | split; assumption]].
  cbn [format_f]. now apply parse_fixed_notation.
Qed.

Lemma format_f_reads_back_witness :
  exists N : Z,
    parse_fixed (format_f 3 (S754_finite false 7205759403792794 (-56))) =
      Some (false, N, 3%nat) /\
    (0 <= N)%Z /\
    ((0 <= -56)%Z ->
     N = (Z.pos 7205759403792794 * 10 ^ Z.of_nat 3 * 2 ^ (-56))%Z) /\
    ((-56 < 0)%Z ->
     (2 * Z.abs (N * 2 ^ (- -56)
                 - Z.pos 7205759403792794 * 10 ^ Z.of_nat 3)
      <= 2 ^ (- -56))%Z).
Proof.
  apply (format_f_reads_back 3 false 7205759403792794%positive (-56)%Z).
  lia.
Defined.
